(** * plasmid-maker: the ORI finder ([src/ori_finder.py])

    A shallow embedding of the GC-skew / clump-finding pipeline and the
    properties its specification states about it.

    Conventions of the embedding:
    - a Python [int] is a [Z] (unbounded);
    - a Python [str] is a [string]; [s[a:b]] is [slice], with Python's
      treatment of negative and out-of-range bounds written out;
    - the skew values are the integer [g - c] or the float [0.0]; every
      number of the pipeline is integer valued, so a number is the [Z] it
      denotes ([0.0] is [0], and Python has [0.0 == 0]);
    - the accumulator of [cumulative_gc_skew] is a float: the function is
      embedded twice, with the float accumulator
      ([cumulative_gc_skew_float], on [PyFloat]) and in exact arithmetic
      ([cumulative_gc_skew]); the two agree while the values and the running
      sums stay within [2 ^ 53] ([cumulative_gc_skew_float_exact]), as they
      do for the profile of a sequence of at most [2 ^ 53] symbols
      ([cumulative_gc_skew_float_of_profile]), and the pipeline is stated on
      the exact one;
    - a [dict] is a [gmap], a [set] of strings a [gset string];
    - an exception is the [Raise] case of [result]. *)

From stdpp Require Import gmap strings list.
From Stdlib Require Import ZArith Lia Ascii.

Local Open Scope Z_scope.

(** ** Exceptions *)

Inductive exn : Set :=
  | ValueError
  | OverflowError.

Inductive result (A : Type) : Type :=
  | Ok (a : A)
  | Raise (e : exn).

Arguments Ok {A} a.
Arguments Raise {A} e.

Definition bind {A B : Type} (r : result A) (k : A → result B) : result B :=
  match r with
  | Ok a => k a
  | Raise e => Raise e
  end.

Notation "'let!' x ':=' r 'in' k" := (bind r (λ x, k))
  (at level 10, x pattern, r at level 100, k at level 200).

(** ** Python built-ins used by the module *)

Module Py.

(** [len(s)] *)
Definition len (s : string) : Z := Z.of_nat (String.length s).

(** How a slice bound is brought into [0 .. n] (step 1): a negative bound
    counts from the end, and everything is clamped. *)
Definition adjust_index (n i : Z) : Z :=
  if i <? 0 then Z.max 0 (i + n) else Z.min i n.

(** [s[lo:hi]] *)
Definition slice (s : string) (lo hi : Z) : string :=
  let n := len s in
  let lo' := adjust_index n lo in
  let hi' := adjust_index n hi in
  String.substring (Z.to_nat lo') (Z.to_nat (hi' - lo')) s.

(** [s.count(c)] for a one-character [c] *)
Fixpoint count (c : ascii) (s : string) : Z :=
  match s with
  | EmptyString => 0
  | String a s' => (if decide (a = c) then 1 else 0) + count c s'
  end.

(** [range(stop)] and [range(start, stop)] *)
Definition range (start stop : Z) : list Z := seqZ start (stop - start).

(** [range(start, stop, step)]: a zero step is a [ValueError]. *)
Definition range_step (start stop step : Z) : result (list Z) :=
  if step =? 0 then Raise ValueError
  else
    let n :=
      if 0 <? step
      then (if start <? stop then (stop - start - 1) / step + 1 else 0)
      else (if stop <? start then (start - stop - 1) / (- step) + 1 else 0) in
    Ok ((λ i, start + i * step) <$> seqZ 0 n).

(** [min(l)]: a [ValueError] on the empty list; the first of the least
    elements otherwise. *)
Definition min (l : list Z) : result Z :=
  match l with
  | [] => Raise ValueError
  | x :: l' => Ok (fold_left (λ m y, if y <? m then y else m) l' x)
  end.

(** [l.index(x)]: the first position holding [x]; a [ValueError] when
    there is none. *)
Fixpoint index_from (i : Z) (l : list Z) (x : Z) : result Z :=
  match l with
  | [] => Raise ValueError
  | y :: l' => if y =? x then Ok i else index_from (i + 1) l' x
  end.

Definition index (l : list Z) (x : Z) : result Z := index_from 0 l x.

(** [sum(l)] *)
Definition sum (l : list Z) : Z := foldr Z.add 0 l.

End Py.

(** ** Floats

    The doubles that arise when integers are added: a finite double of an
    integer value, an infinity, or not-a-number. *)

Module PyFloat.

Inductive float : Set :=
  | Finite (z : Z)
  | Infinity (negative : bool)
  | NaN.

(** The nearest double of an integer: [53] significant bits, a tie goes to
    the even neighbour. *)
Definition round (n : Z) : Z :=
  let a := Z.abs n in
  let e := Z.log2 a + 1 - 53 in
  if e <=? 0 then n
  else
    let q := a / 2 ^ e in
    let r := a mod 2 ^ e in
    let half := 2 ^ (e - 1) in
    let q' := if (half <? r) || ((r =? half) && Z.odd q) then q + 1 else q in
    Z.sgn n * (q' * 2 ^ e).

(** Past the largest double. *)
Definition overflows (z : Z) : bool := 2 ^ 1024 <=? Z.abs z.

(** [float(n)] of an int, as the float operators do it for an int operand:
    an [OverflowError] when [n] is too large for a double. *)
Definition of_int (n : Z) : result float :=
  let r := round n in
  if overflows r then Raise OverflowError else Ok (Finite r).

(** [x + y] on floats *)
Definition add (x y : float) : float :=
  match x, y with
  | Finite a, Finite b =>
      let r := round (a + b) in
      if overflows r then Infinity (r <? 0) else Finite r
  | NaN, _ | _, NaN => NaN
  | Infinity s, Finite _ | Finite _, Infinity s => Infinity s
  | Infinity s, Infinity t => if Bool.eqb s t then Infinity s else NaN
  end.

End PyFloat.

(** ** [compute_gc_skew] *)

Definition gc_skew_of_window (window : string) : Z :=
  let g := Py.count "G"%char window in
  let c := Py.count "C"%char window in
  if g + c =? 0 then 0 else g - c.

Definition compute_gc_skew (sequence : string) (window_size : Z)
    : result (list Z) :=
  let! starts :=
    Py.range_step 0 (Py.len sequence - window_size + 1) window_size in
  Ok (fold_left
        (λ skew_values i,
           let window := Py.slice sequence i (i + window_size) in
           skew_values ++ [gc_skew_of_window window])
        starts []).

(** ** [cumulative_gc_skew] *)

(** With the float accumulator of the source, [total = 0.0] and [total +=
    value], on a profile of integer values. *)
Definition cumulative_gc_skew_float (skew_values : list Z)
    : result (list PyFloat.float) :=
  let! (cumulative, total) :=
    fold_left
      (λ state value,
         let! (cumulative, total) := state in
         let! value := PyFloat.of_int value in
         let total := PyFloat.add total value in
         Ok (cumulative ++ [total], total))
      skew_values (Ok ([], PyFloat.Finite 0)) in
  Ok cumulative.

(** In exact arithmetic: the same loop with the accumulator an integer.
    This is what the float accumulator holds as long as no value and no
    running sum leaves [- 2 ^ 53 .. 2 ^ 53]. *)
Definition cumulative_gc_skew (skew_values : list Z) : list Z :=
  fst (fold_left
         (λ '(cumulative, total) value,
            let total := total + value in
            (cumulative ++ [total], total))
         skew_values ([], 0)).

(** ** [find_ori_position]

    The cumulative profile is read in exact arithmetic: the skew values of
    a sequence are sums of counts, which the float accumulator holds
    exactly ([cumulative_gc_skew_float_of_profile]). *)

Definition find_ori_position (sequence : string) (window_size : Z)
    : result (Z * Z) :=
  let! skew := compute_gc_skew sequence window_size in
  let cumulative := cumulative_gc_skew skew in
  let! m := Py.min cumulative in
  let! min_index := Py.index cumulative m in
  let ori_start := min_index * window_size in
  let ori_end := ori_start + window_size in
  Ok (ori_start, ori_end).

(** ** [extract_ori_region] *)

Definition extract_ori_region (sequence : string) (window_size flank : Z)
    : result (string * Z * Z) :=
  let! (ori_start, ori_end) := find_ori_position sequence window_size in
  let ori_center := ori_start + window_size `div` 2 in
  let start := Z.max 0 (ori_center - flank) in
  let end_ := Z.min (Py.len sequence) (ori_center + flank) in
  Ok (Py.slice sequence start end_, start, end_).

(** ** [find_clumps] *)

(** The inner loop: [kmer_counts[kmer] += 1] on a [defaultdict(int)]. *)
Definition count_kmers (window : string) (k : Z) : gmap string Z :=
  fold_left
    (λ kmer_counts j,
       let kmer := Py.slice window j (j + k) in
       <[kmer := default 0 (kmer_counts !! kmer) + 1]> kmer_counts)
    (Py.range 0 (Py.len window - k + 1)) ∅.

(** The set comprehension over [kmer_counts.items()]. *)
Definition frequent_kmers (kmer_counts : gmap string Z) (min_occurrence : Z)
    : gset string :=
  dom (filter (λ kc, min_occurrence ≤ kc.2) kmer_counts).

Definition find_clumps (sequence : string) (k window_length min_occurrence : Z)
    : gmap (Z * Z) (gset string) :=
  fold_left
    (λ clumps i,
       let window := Py.slice sequence i (i + window_length) in
       let kmer_counts := count_kmers window k in
       let frequent := frequent_kmers kmer_counts min_occurrence in
       if decide (frequent = ∅) then clumps
       else <[(i, i + window_length) := frequent]> clumps)
    (Py.range 0 (Py.len sequence - window_length + 1)) ∅.

(** ** [find_ori_with_clumps] *)

Record analysis_result : Type := {
  ori_start : Z;
  ori_end : Z;
  ori_sequence : string;
  clumps : gmap (Z * Z) (gset string);
}.

Definition find_ori_with_clumps (sequence : string)
    (skew_window flank k clump_window min_occurrence : Z)
    : result analysis_result :=
  let! (ori_region, start, end_) :=
    extract_ori_region sequence skew_window flank in
  let clumps := find_clumps ori_region k clump_window min_occurrence in
  Ok {| ori_start := start; ori_end := end_;
        ori_sequence := ori_region; clumps := clumps |}.

(** * [src/fasta_utils.py]

    Conventions: the file system is a map from the paths that exist to the
    text of the file there (a readable regular file of ASCII characters);
    the file is read in text mode, so the three line endings are read as
    ["\n"]. *)

(** ** The [str] methods and the text-mode reading used by [read_fasta] *)

Module PyText.

Definition LF : ascii := "010"%char.
Definition CR : ascii := "013"%char.

(** [c.isspace()] on an ASCII character: tab, line feed, vertical tab, form
    feed, carriage return, the four separators [0x1c .. 0x1f], space. *)
Definition isspace (c : ascii) : bool :=
  let n := nat_of_ascii c in
  ((9 <=? n)%nat && (n <=? 13)%nat) || ((28 <=? n)%nat && (n <=? 32)%nat).

(** [s.lstrip()] *)
Fixpoint lstrip (s : string) : string :=
  match s with
  | EmptyString => EmptyString
  | String c rest => if isspace c then lstrip rest else s
  end.

(** [s.rstrip()] *)
Fixpoint rstrip (s : string) : string :=
  match s with
  | EmptyString => EmptyString
  | String c rest =>
      match rstrip rest with
      | EmptyString => if isspace c then EmptyString else String c EmptyString
      | kept => String c kept
      end
  end.

(** [s.strip()] *)
Definition strip (s : string) : string := rstrip (lstrip s).

(** [c.upper()] on an ASCII character *)
Definition upper_char (c : ascii) : ascii :=
  let n := nat_of_ascii c in
  if ((97 <=? n)%nat && (n <=? 122)%nat) then ascii_of_nat (n - 32) else c.

(** [s.upper()] *)
Fixpoint upper (s : string) : string :=
  match s with
  | EmptyString => EmptyString
  | String c rest => String (upper_char c) (upper rest)
  end.

(** [s.startswith(prefix)] *)
Definition startswith (s prefix : string) : bool := String.prefix prefix s.

(** [sep.join(parts)] *)
Definition join (sep : string) (parts : list string) : string :=
  String.concat sep parts.

(** Text mode with the default [newline=None]: on reading, ["\r\n"] and a
    lone ["\r"] become ["\n"]. *)
Fixpoint universal_newlines (s : string) : string :=
  match s with
  | EmptyString => EmptyString
  | String c rest =>
      if decide (c = CR) then
        match rest with
        | String c' rest' =>
            if decide (c' = LF) then String LF (universal_newlines rest')
            else String LF (universal_newlines rest)
        | EmptyString => String LF EmptyString
        end
      else String c (universal_newlines rest)
  end.

(** [for line in f]: the lines of the text, each with its ["\n"], the last
    one without when the text does not end in ["\n"]. *)
Fixpoint lines (s : string) : list string :=
  match s with
  | EmptyString => []
  | String c rest =>
      if decide (c = LF) then String LF EmptyString :: lines rest
      else
        match lines rest with
        | [] => [String c EmptyString]
        | line :: later => String c line :: later
        end
  end.

End PyText.

(** ** [read_fasta] *)

Module Fasta.

Inductive error : Set :=
  | FileNotFoundError
  | Exn (e : exn).

Inductive outcome : Type :=
  | Returned (sequence : string)
  | Failed (e : error).

(** The loop over the lines of the open file. *)
Definition sequence_parts (text : string) : list string :=
  fold_left
    (λ parts line,
       let line := PyText.strip line in
       if decide (line = EmptyString) then parts
       else if PyText.startswith line ">" then parts
       else parts ++ [line])
    (PyText.lines (PyText.universal_newlines text)) [].

Definition read_fasta (fs : gmap string string) (fasta_path : string)
    : outcome :=
  match fs !! fasta_path with
  | None => Failed FileNotFoundError
  | Some text =>
      let sequence :=
        PyText.upper (PyText.join EmptyString (sequence_parts text)) in
      if decide (sequence = EmptyString) then Failed (Exn ValueError)
      else Returned sequence
  end.

End Fasta.

(** * Reference definitions

    What the specification says the functions compute, written
    independently of the loops above. *)

(** The prefix sums of [l] on top of a starting total. *)
Fixpoint running_totals (total : Z) (l : list Z) : list Z :=
  match l with
  | [] => []
  | value :: l' => (total + value) :: running_totals (total + value) l'
  end.

(** An integer that a double holds exactly, whatever came before. *)
Definition within_double (z : Z) : Prop := - 2 ^ 53 ≤ z ∧ z ≤ 2 ^ 53.

(** A profile whose values and running sums are all held exactly. *)
Definition exactly_summable (l : list Z) : Prop :=
  Forall within_double l ∧ Forall within_double (running_totals 0 l).

(** The number of ['G'] minus the number of ['C'] in the first [j + 1]
    windows of the sequence. *)
Definition prefix_skew (sequence : string) (window_size : Z) (j : nat) : Z :=
  let prefix := Py.slice sequence 0 ((Z.of_nat j + 1) * window_size) in
  Py.count "G"%char prefix - Py.count "C"%char prefix.

(** The number of positions of [window] at which [kmer] occurs, overlapping
    occurrences included. *)
Fixpoint occurrences (kmer window : string) : Z :=
  (if String.prefix kmer window then 1 else 0)
  + match window with
    | EmptyString => 0
    | String _ rest => occurrences kmer rest
    end.

(** All the substrings of [window] that have length [k]. *)
Definition substrings_of_length (k : Z) (window : string) : list string :=
  if k <? 0 then []
  else (λ j, String.substring j (Z.to_nat k) window)
         <$> seq 0 (Z.to_nat (Py.len window - k + 1)).

(** The [k]-mers occurring at least [min_occurrence] times in [window]. *)
Definition frequent_set (window : string) (k min_occurrence : Z)
    : gset string :=
  list_to_set
    (filter (λ kmer, min_occurrence ≤ occurrences kmer window)
       (substrings_of_length k window)).

(** The [window_length] symbols of [sequence] from offset [i]. *)
Definition window_at (sequence : string) (i window_length : Z) : string :=
  String.substring (Z.to_nat i) (Z.to_nat window_length) sequence.

(** One key [(i, i + window_length)] for each offset [0 ≤ i ≤ len(sequence)
    - window_length] whose frequent set is not empty, bound to that set. *)
Definition find_clumps_reference
    (sequence : string) (k window_length min_occurrence : Z)
    : gmap (Z * Z) (gset string) :=
  list_to_map
    ((λ i, ((i, i + window_length),
            frequent_set (window_at sequence i window_length)
              k min_occurrence))
       <$> filter
             (λ i, frequent_set (window_at sequence i window_length)
                     k min_occurrence ≠ ∅)
             (seqZ 0 (Py.len sequence - window_length + 1))).

(** The line ending of a text that has been read. *)
Definition line_feed : string := String PyText.LF EmptyString.

(** The line endings a text file can have: Unix, Windows, old Mac. *)
Definition line_endings : list string :=
  [line_feed; String PyText.CR line_feed; String PyText.CR EmptyString].

(** The text made of the lines [ls], each followed by [terminator]. *)
Fixpoint text_of_lines (terminator : string) (ls : list string) : string :=
  match ls with
  | [] => EmptyString
  | l :: ls' => l +:+ terminator +:+ text_of_lines terminator ls'
  end.

(** The characters of a string. *)
Definition chars (s : string) : list ascii := String.list_ascii_of_string s.

(** A string without a line feed or a carriage return. *)
Definition no_line_break (s : string) : Prop :=
  Forall (λ c, c ≠ PyText.LF ∧ c ≠ PyText.CR) (chars s).

(** The lines that carry sequence: stripped, not empty, not a header. *)
Definition sequence_lines (ls : list string) : list string :=
  filter (λ l, l ≠ EmptyString ∧ PyText.startswith l ">" = false)
    (PyText.strip <$> ls).

(** * Facts about the built-ins *)

Section substring_facts.

Lemma substring_empty n m : String.substring n m "" = "".
Proof. by destruct n, m. Qed.

Lemma length_substring s : ∀ n m,
  String.length (String.substring n m s)
  = Nat.min m (String.length s - n)%nat.
Proof.
  induction s as [|c s IH]; intros n m.
  - rewrite substring_empty. simpl. lia.
  - destruct n as [|n], m as [|m];
      cbn [String.substring String.length]; rewrite ?IH; lia.
Qed.

Lemma substring_substring s : ∀ n m j k,
  (j + k ≤ m)%nat →
  String.substring j k (String.substring n m s)
  = String.substring (n + j) k s.
Proof.
  induction s as [|c s IH]; intros n m j k Hjk.
  - by rewrite !substring_empty.
  - destruct n as [|n]; [|simpl; by apply IH].
    destruct m as [|m].
    { assert (j = 0%nat) as -> by lia. assert (k = 0%nat) as -> by lia. done. }
    destruct j as [|j]; simpl.
    + destruct k as [|k]; [done|]. f_equal. apply (IH 0%nat); lia.
    + apply (IH 0%nat). lia.
Qed.

End substring_facts.

Section slice_facts.

Lemma len_nonneg s : 0 ≤ Py.len s.
Proof. unfold Py.len. lia. Qed.

(** Within bounds a slice is the plain substring. *)
Lemma slice_substring s lo hi :
  0 ≤ lo → lo ≤ hi → hi ≤ Py.len s →
  Py.slice s lo hi
  = String.substring (Z.to_nat lo) (Z.to_nat (hi - lo)) s.
Proof.
  intros Hlo Hhi Hlen. unfold Py.slice, Py.adjust_index.
  destruct (Z.ltb_spec lo 0), (Z.ltb_spec hi 0); try lia.
  by rewrite !Z.min_l by lia.
Qed.

Lemma len_slice s lo hi :
  0 ≤ lo → lo ≤ hi → hi ≤ Py.len s → Py.len (Py.slice s lo hi) = hi - lo.
Proof.
  intros Hlo Hhi Hlen. rewrite slice_substring by done.
  unfold Py.len in *. rewrite length_substring. lia.
Qed.

End slice_facts.

Section loop_facts.

(** A loop that appends one value per element is a map. *)
Lemma fold_left_append_fmap {A B} (f : A → B) (l : list A) (acc : list B) :
  fold_left (λ acc x, acc ++ [f x]) l acc = acc ++ (f <$> l).
Proof.
  revert acc. induction l as [|x l IH]; intros acc; simpl.
  - by rewrite app_nil_r.
  - rewrite IH. by rewrite <- app_assoc.
Qed.

(** The number of whole windows of width [w] in [n] symbols, as [range]
    counts the starts [0, w, 2w, ...] below [n - w + 1]. *)
Lemma window_count n w :
  0 ≤ n → 0 < w →
  (if 0 <? n - w + 1 then (n - w + 1 - 0 - 1) / w + 1 else 0) = n / w.
Proof.
  intros Hn Hw. destruct (Z.ltb_spec 0 (n - w + 1)).
  - replace (n - w + 1 - 0 - 1) with (n + (-1) * w) by lia.
    rewrite Z.div_add by lia. lia.
  - symmetry. apply Z.div_small. lia.
Qed.

Lemma range_step_windows n w :
  0 ≤ n → 0 < w →
  Py.range_step 0 (n - w + 1) w = Ok ((λ i, i * w) <$> seqZ 0 (n / w)).
Proof.
  intros Hn Hw. unfold Py.range_step.
  destruct (Z.eqb_spec w 0); [lia|].
  destruct (Z.ltb_spec 0 w); [|lia].
  by rewrite window_count.
Qed.

Lemma range_step_zero start stop :
  Py.range_step start stop 0 = Raise ValueError.
Proof. done. Qed.

(** A negative step from [0] towards a positive stop visits nothing. *)
Lemma range_step_negative stop step :
  step < 0 → 0 ≤ stop → Py.range_step 0 stop step = Ok [].
Proof.
  intros Hs Hstop. unfold Py.range_step.
  destruct (Z.eqb_spec step 0); [lia|].
  destruct (Z.ltb_spec 0 step); [lia|].
  destruct (Z.ltb_spec stop 0); [lia|]. done.
Qed.

End loop_facts.

Section skew_facts.

Lemma compute_gc_skew_fmap sequence w :
  0 < w →
  compute_gc_skew sequence w
  = Ok ((λ i, gc_skew_of_window (Py.slice sequence (i * w) (i * w + w)))
          <$> seqZ 0 (Py.len sequence / w)).
Proof.
  intros Hw. unfold compute_gc_skew.
  rewrite range_step_windows by (auto using len_nonneg).
  cbn [bind]. f_equal.
  rewrite (fold_left_append_fmap
             (λ i, gc_skew_of_window (Py.slice sequence i (i + w)))).
  by rewrite app_nil_l, <- list_fmap_compose.
Qed.

(** The special case for [g + c == 0] yields the same number as [g - c]. *)
Lemma gc_skew_of_window_diff window :
  gc_skew_of_window window
  = Py.count "G"%char window - Py.count "C"%char window.
Proof.
  unfold gc_skew_of_window.
  assert (∀ c s, 0 ≤ Py.count c s) as Hnn.
  { intros c s. induction s as [|a s IH]; simpl; [done|].
    destruct (decide (a = c)); lia. }
  pose proof (Hnn "G"%char window). pose proof (Hnn "C"%char window).
  destruct (Z.eqb_spec (Py.count "G"%char window
                        + Py.count "C"%char window) 0); lia.
Qed.

Lemma window_in_range sequence w i :
  0 < w → 0 ≤ i < Py.len sequence / w →
  0 ≤ i * w ∧ i * w + w ≤ Py.len sequence.
Proof.
  intros Hw Hi. pose proof (len_nonneg sequence).
  pose proof (Z.mul_div_le (Py.len sequence) w Hw). nia.
Qed.

End skew_facts.

(** C4: for a positive [window_size] the profile has [len / window_size]
    values, one for each consecutive window of exactly [window_size] symbols
    from offset [0]; value [i] is the number of ['G'] minus the number of
    ['C'] in the window at [i * window_size], which is [0] when both counts
    are [0]; a window wider than the sequence gives the empty profile. *)
Theorem compute_gc_skew_profile (sequence : string) (window_size : Z) :
  0 < window_size →
  ∃ skew_values : list Z,
    compute_gc_skew sequence window_size = Ok skew_values
    ∧ Z.of_nat (length skew_values) = Py.len sequence / window_size
    ∧ (∀ i, 0 ≤ i < Py.len sequence / window_size →
         let window :=
           String.substring (Z.to_nat (i * window_size))
             (Z.to_nat window_size) sequence in
         let g := Py.count "G"%char window in
         let c := Py.count "C"%char window in
         Py.len window = window_size
         ∧ skew_values !! Z.to_nat i = Some (g - c)
         ∧ (g = 0 → c = 0 → skew_values !! Z.to_nat i = Some 0))
    ∧ (Py.len sequence < window_size → skew_values = []).
Proof.
  intros Hw. eexists. split; [by apply compute_gc_skew_fmap|].
  pose proof (len_nonneg sequence) as Hlen.
  assert (0 ≤ Py.len sequence / window_size) by (apply Z.div_pos; lia).
  split; [|split].
  - rewrite length_fmap, length_seqZ. lia.
  - intros i Hi window g c.
    destruct (window_in_range sequence window_size i Hw Hi) as [Hlo Hhi].
    assert (skew_values_i :
      ((λ i, gc_skew_of_window
               (Py.slice sequence (i * window_size)
                  (i * window_size + window_size)))
         <$> seqZ 0 (Py.len sequence / window_size)) !! Z.to_nat i
      = Some (g - c)).
    { rewrite list_lookup_fmap, lookup_seqZ_lt by lia. cbn [fmap option_fmap option_map].
      rewrite Z2Nat.id, Z.add_0_l by lia.
      rewrite gc_skew_of_window_diff, slice_substring by lia.
      subst g c window. do 4 f_equal; lia. }
    split; [|split].
    + subst window. unfold Py.len in *. rewrite length_substring. lia.
    + done.
    + intros Hg Hc. rewrite skew_values_i. f_equal. lia.
  - intros Hshort. rewrite Z.div_small by lia. done.
Qed.

Lemma compute_gc_skew_profile_witness :
  0 < 3
  ∧ ∃ skew_values : list Z,
      compute_gc_skew "GGCATGCCCGG" 3 = Ok skew_values
      ∧ Z.of_nat (length skew_values) = 3
      ∧ skew_values !! 2%nat = Some (-3).
Proof.
  assert (0 < 3) as Hw by lia. split; [exact Hw|].
  destruct (compute_gc_skew_profile "GGCATGCCCGG" 3 Hw)
    as (skew_values & Hrun & Hlen & Hval & _).
  exists skew_values. split; [exact Hrun|]. split; [exact Hlen|].
  destruct (Hval 2 ltac:(vm_compute; split; [discriminate|reflexivity]))
    as (_ & Hthird & _).
  exact Hthird.
Defined.

(** * The running sum *)

Section cumulative_facts.

Lemma cumulative_loop l : ∀ cumulative total,
  fold_left
    (λ '(cumulative, total) value,
       let total := total + value in (cumulative ++ [total], total))
    l (cumulative, total)
  = (cumulative ++ running_totals total l, total + Py.sum l).
Proof.
  induction l as [|value l IH]; intros cumulative total; simpl.
  - by rewrite app_nil_r, Z.add_0_r.
  - rewrite IH, <- app_assoc. f_equal. unfold Py.sum. simpl. lia.
Qed.

Lemma cumulative_gc_skew_running l :
  cumulative_gc_skew l = running_totals 0 l.
Proof. unfold cumulative_gc_skew. by rewrite cumulative_loop. Qed.

Lemma length_running_totals l : ∀ total,
  length (running_totals total l) = length l.
Proof. induction l; intros; simpl; by f_equal. Qed.

Lemma lookup_running_totals l : ∀ total (i : nat),
  (i < length l)%nat →
  running_totals total l !! i = Some (total + Py.sum (take (S i) l)).
Proof.
  induction l as [|value l IH]; intros total i Hi; simpl in *; [lia|].
  destruct i as [|i]; simpl.
  - f_equal. unfold Py.sum. simpl. lia.
  - rewrite IH by lia. f_equal. unfold Py.sum. simpl. lia.
Qed.

Lemma length_cumulative_gc_skew l :
  length (cumulative_gc_skew l) = length l.
Proof. by rewrite cumulative_gc_skew_running, length_running_totals. Qed.

End cumulative_facts.

Section float_accumulator_facts.

(** An integer of at most [53] bits is a double. *)
Lemma round_exact (z : Z) : within_double z → PyFloat.round z = z.
Proof.
  intros [Hlo Hhi]. unfold PyFloat.round.
  destruct (decide (Z.abs z = 2 ^ 53)) as [Hedge|Hinner].
  - assert (z = 2 ^ 53 ∨ z = - 2 ^ 53) as [-> | ->] by lia; reflexivity.
  - assert (Z.log2 (Z.abs z) < 53) as Hbits.
    { destruct (decide (Z.abs z = 0)) as [->|Hpos]; [done|].
      apply Z.log2_lt_pow2; lia. }
    destruct (Z.leb_spec (Z.log2 (Z.abs z) + 1 - 53) 0); [done|lia].
Qed.

Lemma within_double_no_overflow (z : Z) :
  within_double z → PyFloat.overflows z = false.
Proof.
  intros [Hlo Hhi]. unfold PyFloat.overflows.
  assert (2 ^ 53 < 2 ^ 1024) by (by apply Z.pow_lt_mono_r).
  destruct (Z.leb_spec (2 ^ 1024) (Z.abs z)); [lia|done].
Qed.

Lemma of_int_exact (z : Z) :
  within_double z → PyFloat.of_int z = Ok (PyFloat.Finite z).
Proof.
  intros Hz. unfold PyFloat.of_int. cbn zeta.
  by rewrite round_exact, within_double_no_overflow.
Qed.

Lemma add_exact (a b : Z) :
  within_double (a + b) →
  PyFloat.add (PyFloat.Finite a) (PyFloat.Finite b) = PyFloat.Finite (a + b).
Proof.
  intros Hsum. unfold PyFloat.add. cbn zeta.
  by rewrite round_exact, within_double_no_overflow.
Qed.

(** The float loop on values and running sums that doubles hold exactly. *)
Lemma cumulative_float_loop (l : list Z) :
  ∀ (cumulative : list PyFloat.float) (total : Z),
    Forall within_double l →
    Forall within_double (running_totals total l) →
    fold_left
      (λ state value,
         let! (cumulative, total) := state in
         let! value := PyFloat.of_int value in
         let total := PyFloat.add total value in
         Ok (cumulative ++ [total], total))
      l (Ok (cumulative, PyFloat.Finite total))
    = Ok (cumulative ++ (PyFloat.Finite <$> running_totals total l),
          PyFloat.Finite (total + Py.sum l)).
Proof.
  induction l as [|value l IH]; intros cumulative total Hvalues Hsums.
  - simpl. by rewrite app_nil_r, Z.add_0_r.
  - apply Forall_cons in Hvalues as [Hvalue Hvalues].
    cbn [running_totals] in Hsums.
    apply Forall_cons in Hsums as [Hsum Hsums].
    cbn [fold_left bind]. rewrite of_int_exact by done. cbn [bind].
    rewrite add_exact by done. rewrite IH by done.
    cbn [running_totals fmap list_fmap]. rewrite <- app_assoc.
    do 3 f_equal. unfold Py.sum. simpl. lia.
Qed.

(** On such a profile the float accumulator holds the exact running sums. *)
Lemma cumulative_gc_skew_float_exact (l : list Z) :
  exactly_summable l →
  cumulative_gc_skew_float l = Ok (PyFloat.Finite <$> cumulative_gc_skew l).
Proof.
  intros [Hvalues Hsums]. unfold cumulative_gc_skew_float.
  rewrite cumulative_float_loop by done. cbn [bind].
  by rewrite cumulative_gc_skew_running.
Qed.

(** Whatever the values, a profile that is returned has one element for
    each value. *)
Lemma cumulative_float_loop_length (l : list Z) :
  ∀ (state : result (list PyFloat.float * PyFloat.float))
    (cumulative : list PyFloat.float) (total : PyFloat.float),
    fold_left
      (λ state value,
         let! (cumulative, total) := state in
         let! value := PyFloat.of_int value in
         let total := PyFloat.add total value in
         Ok (cumulative ++ [total], total))
      l state
    = Ok (cumulative, total) →
    ∃ before total0,
      state = Ok (before, total0)
      ∧ length cumulative = (length before + length l)%nat.
Proof.
  induction l as [|value l IH]; intros state cumulative total Hrun.
  - simpl in Hrun. exists cumulative, total. split; [done|]. simpl. lia.
  - cbn [fold_left] in Hrun.
    apply IH in Hrun as (before & total0 & Hstep & Hlen).
    destruct state as [[before' total']|]; [|done]. cbn [bind] in Hstep.
    destruct (PyFloat.of_int value); [|done]. cbn [bind] in Hstep.
    injection Hstep as <- _. exists before', total'. split; [done|].
    rewrite length_app in Hlen. simpl in *. lia.
Qed.

Lemma running_totals_sum (l : list Z) (i : nat) :
  (i < length l)%nat → running_totals 0 l !! i = Some (Py.sum (take (S i) l)).
Proof.
  intros Hi. by rewrite lookup_running_totals.
Qed.

End float_accumulator_facts.

(** C5, as the code has it: the accumulator is a float, so the claim holds
    where doubles are exact. For a profile of integers whose values and
    running sums all lie in [- 2 ^ 53 .. 2 ^ 53] the cumulative profile has
    the same length, its element [i] is the sum of the elements [0 .. i],
    so its last element is the sum of the whole input; the empty profile
    gives the empty profile; and whatever the integers, a profile that is
    returned has the length of the input. *)
Theorem cumulative_gc_skew_prefix_sums (skew_values : list Z) :
  exactly_summable skew_values →
  ∃ cumulative : list PyFloat.float,
    cumulative_gc_skew_float skew_values = Ok cumulative
    ∧ length cumulative = length skew_values
    ∧ (∀ i : nat, (i < length skew_values)%nat →
         cumulative !! i
         = Some (PyFloat.Finite (Py.sum (take (S i) skew_values))))
    ∧ (skew_values ≠ [] →
         last cumulative = Some (PyFloat.Finite (Py.sum skew_values)))
    ∧ cumulative_gc_skew_float [] = Ok []
    ∧ ∀ (any : list Z) (returned : list PyFloat.float),
        cumulative_gc_skew_float any = Ok returned →
        length returned = length any.
Proof.
  intros Hexact. eexists. split; [by apply cumulative_gc_skew_float_exact|].
  assert (∀ i : nat, (i < length skew_values)%nat →
            (PyFloat.Finite <$> cumulative_gc_skew skew_values) !! i
            = Some (PyFloat.Finite (Py.sum (take (S i) skew_values))))
    as Hprefix.
  { intros i Hi. rewrite list_lookup_fmap, cumulative_gc_skew_running.
    by rewrite running_totals_sum. }
  split; [by rewrite length_fmap, length_cumulative_gc_skew|].
  split; [exact Hprefix|]. split; [|split; [done|]].
  - intros Hne. rewrite last_lookup, length_fmap, length_cumulative_gc_skew.
    destruct skew_values as [|x l]; [done|].
    rewrite Hprefix by (simpl; lia).
    do 3 f_equal. simpl length. rewrite Nat.pred_succ.
    apply (take_ge (x :: l)). simpl. lia.
  - intros any returned. unfold cumulative_gc_skew_float.
    destruct (fold_left _ any _) as [[cumulative total]|] eqn:Hloop; [|done].
    cbn [bind]. intros [= <-].
    apply cumulative_float_loop_length in Hloop
      as (before & total0 & [= <- <-] & Hlen).
    simpl in Hlen. lia.
Qed.

Lemma cumulative_gc_skew_prefix_sums_witness :
  exactly_summable [1; -2; 3; -1]
  ∧ cumulative_gc_skew_float [1; -2; 3; -1]
    = Ok [PyFloat.Finite 1; PyFloat.Finite (-1); PyFloat.Finite 2;
          PyFloat.Finite 1]
  ∧ ∃ cumulative : list PyFloat.float,
      cumulative_gc_skew_float [1; -2; 3; -1] = Ok cumulative
      ∧ last cumulative = Some (PyFloat.Finite (Py.sum [1; -2; 3; -1])).
Proof.
  assert (exactly_summable [1; -2; 3; -1]) as Hexact
    by (split; repeat constructor; vm_compute; discriminate).
  split; [exact Hexact|]. split; [reflexivity|].
  destruct (cumulative_gc_skew_prefix_sums [1; -2; 3; -1] Hexact)
    as (cumulative & Hrun & _ & _ & Hlast & _).
  exists cumulative. split; [exact Hrun|]. apply Hlast. discriminate.
Defined.

(** C5 as stated fails once a sum is not a double: on the one-element
    profile [[2 ^ 53 + 1]] the float accumulator holds [2 ^ 53], not the
    sum of the elements [0 .. 0]. *)
Lemma cumulative_gc_skew_float_rounds :
  cumulative_gc_skew_float [2 ^ 53 + 1] = Ok [PyFloat.Finite (2 ^ 53)]
  ∧ Py.sum (take 1 [2 ^ 53 + 1]) = 2 ^ 53 + 1
  ∧ PyFloat.Finite (2 ^ 53) ≠ PyFloat.Finite (2 ^ 53 + 1)
  ∧ ¬ exactly_summable [2 ^ 53 + 1].
Proof.
  split; [reflexivity|]. split; [reflexivity|]. split; [by intros [=]|].
  intros [Hvalues _]. apply Forall_cons in Hvalues as [[_ Hhigh] _].
  vm_compute in Hhigh. by apply Hhigh.
Qed.

Example cumulative_gc_skew_example :
  cumulative_gc_skew [1; -2; 3; -1] = [1; -1; 2; 1].
Proof. reflexivity. Qed.

(** * Locating the minimum *)

Section minimum_facts.

Lemma min_loop_spec (l : list Z) : ∀ m0,
  let m := fold_left (λ m y, if y <? m then y else m) l m0 in
  m ≤ m0 ∧ (∀ y, y ∈ l → m ≤ y) ∧ (m = m0 ∨ m ∈ l).
Proof.
  induction l as [|x l IH]; intros m0; simpl.
  - split; [lia|]. split; [|by left]. by intros y ?%elem_of_nil.
  - destruct (IH (if x <? m0 then x else m0)) as (Hle & Hall & Hin).
    destruct (Z.ltb_spec x m0).
    + split; [lia|]. split.
      * intros y [->|Hy]%elem_of_cons; [lia|by apply Hall].
      * right. destruct Hin as [->|Hin]; [left|by right].
    + split; [lia|]. split.
      * intros y [->|Hy]%elem_of_cons; [lia|by apply Hall].
      * destruct Hin as [->|Hin]; [by left|right; by right].
Qed.

Lemma min_spec (l : list Z) :
  l ≠ [] → ∃ m, Py.min l = Ok m ∧ m ∈ l ∧ ∀ y, y ∈ l → m ≤ y.
Proof.
  destruct l as [|x l]; [done|]. intros _. eexists. split; [done|].
  destruct (min_loop_spec l x) as (Hle & Hall & Hin). split.
  - destruct Hin as [->|Hin]; [left|by right].
  - intros y [->|Hy]%elem_of_cons; [done|by apply Hall].
Qed.

Lemma index_from_spec (l : list Z) (x : Z) : ∀ i,
  x ∈ l →
  ∃ n : nat,
    Py.index_from i l x = Ok (i + Z.of_nat n)
    ∧ l !! n = Some x
    ∧ ∀ j : nat, (j < n)%nat → l !! j ≠ Some x.
Proof.
  induction l as [|y l IH]; intros i Hin; [by apply elem_of_nil in Hin|].
  simpl. destruct (Z.eqb_spec y x) as [->|Hne].
  - exists 0%nat. split; [f_equal; lia|]. split; [done|]. lia.
  - apply elem_of_cons in Hin as [->|Hin]; [done|].
    destruct (IH (i + 1) Hin) as (n & Hrun & Hn & Hfirst).
    exists (S n). split; [rewrite Hrun; f_equal; lia|]. split; [done|].
    intros [|j] Hj; simpl; [congruence|]. apply Hfirst. lia.
Qed.

(** [l.index(min(l))] on a non-empty list. *)
Lemma index_of_min (l : list Z) :
  l ≠ [] →
  ∃ (m : Z) (n : nat),
    Py.min l = Ok m
    ∧ Py.index l m = Ok (Z.of_nat n)
    ∧ l !! n = Some m
    ∧ (∀ (j : nat) y, l !! j = Some y → m ≤ y)
    ∧ (∀ (j : nat) y, (j < n)%nat → l !! j = Some y → m < y).
Proof.
  intros Hne. destruct (min_spec l Hne) as (m & Hmin & Hin & Hleast).
  destruct (index_from_spec l m 0 Hin) as (n & Hidx & Hn & Hfirst).
  exists m, n. split; [done|]. split; [done|]. split; [done|]. split.
  - intros j y Hj. apply Hleast. by eapply list_elem_of_lookup_2.
  - intros j y Hlt Hj.
    assert (m ≤ y) by (apply Hleast; by eapply list_elem_of_lookup_2).
    assert (y ≠ m) by (intros ->; by apply (Hfirst j)). lia.
Qed.

End minimum_facts.

Section ori_position_facts.

Lemma compute_gc_skew_length sequence w skew :
  0 < w → compute_gc_skew sequence w = Ok skew →
  Z.of_nat (length skew) = Py.len sequence / w.
Proof.
  intros Hw Hrun. rewrite compute_gc_skew_fmap in Hrun by done.
  injection Hrun as <-. rewrite length_fmap, length_seqZ.
  pose proof (len_nonneg sequence).
  assert (0 ≤ Py.len sequence / w) by (apply Z.div_pos; lia). lia.
Qed.

Lemma find_ori_position_unfold sequence w skew :
  compute_gc_skew sequence w = Ok skew →
  find_ori_position sequence w
  = (let cumulative := cumulative_gc_skew skew in
     let! m := Py.min cumulative in
     let! min_index := Py.index cumulative m in
     Ok (min_index * w, min_index * w + w)).
Proof. intros Hrun. unfold find_ori_position. by rewrite Hrun. Qed.

(** What [find_ori_position] returns on a non-empty cumulative profile. *)
Lemma find_ori_position_ok sequence w skew :
  0 < w →
  compute_gc_skew sequence w = Ok skew →
  cumulative_gc_skew skew ≠ [] →
  ∃ (i : nat) (least : Z),
    find_ori_position sequence w
    = Ok (Z.of_nat i * w, Z.of_nat i * w + w)
    ∧ cumulative_gc_skew skew !! i = Some least
    ∧ (∀ (j : nat) y, cumulative_gc_skew skew !! j = Some y → least ≤ y)
    ∧ (∀ (j : nat) y,
         (j < i)%nat → cumulative_gc_skew skew !! j = Some y → least < y)
    ∧ 0 ≤ Z.of_nat i * w
    ∧ Z.of_nat i * w + w ≤ Py.len sequence.
Proof.
  intros Hw Hrun Hne.
  destruct (index_of_min _ Hne)
    as (m & n & Hmin & Hidx & Hn & Hleast & Hfirst).
  exists n, m. split.
  { rewrite (find_ori_position_unfold _ _ _ Hrun). cbn zeta.
    rewrite Hmin. cbn [bind]. by rewrite Hidx. }
  do 3 (split; [done|]).
  assert (Z.of_nat n < Py.len sequence / w) as Hn_lt.
  { rewrite <- (compute_gc_skew_length _ _ _ Hw Hrun).
    rewrite <- (length_cumulative_gc_skew skew).
    apply lookup_lt_Some in Hn. lia. }
  apply (window_in_range sequence w (Z.of_nat n) Hw). lia.
Qed.

(** With a positive window the skew profile is always computed. *)
Lemma compute_gc_skew_ok sequence w :
  0 < w → ∃ skew, compute_gc_skew sequence w = Ok skew.
Proof. intros Hw. eexists. by apply compute_gc_skew_fmap. Qed.

Lemma cumulative_empty_iff sequence w skew :
  0 < w → compute_gc_skew sequence w = Ok skew →
  cumulative_gc_skew skew = [] ↔ Py.len sequence < w.
Proof.
  intros Hw Hrun.
  pose proof (compute_gc_skew_length _ _ _ Hw Hrun) as Hlen.
  pose proof (len_nonneg sequence) as Hnn.
  pose proof (length_cumulative_gc_skew skew) as Hcum.
  split.
  - intros Hnil. rewrite Hnil in Hcum. simpl in Hcum.
    rewrite <- Hcum in Hlen. simpl in Hlen.
    destruct (Z.lt_ge_cases (Py.len sequence) w) as [|Hge]; [done|].
    assert (1 ≤ Py.len sequence / w)
      by (apply Z.div_le_lower_bound; lia). lia.
  - intros Hshort. rewrite Z.div_small in Hlen by lia.
    destruct (cumulative_gc_skew skew); [done|simpl in *; lia].
Qed.

End ori_position_facts.

(** C9: with a positive [window_size], [find_ori_position] raises (the
    [ValueError] of [min] on an empty list) exactly when the cumulative
    profile is empty, that is when the sequence is shorter than one window;
    on a non-empty profile it returns a pair. *)
Theorem find_ori_position_empty_profile
    (sequence : string) (window_size : Z) :
  0 < window_size →
  ∃ skew : list Z,
    compute_gc_skew sequence window_size = Ok skew
    ∧ (cumulative_gc_skew skew = [] ↔ Py.len sequence < window_size)
    ∧ (cumulative_gc_skew skew = [] →
         find_ori_position sequence window_size = Raise ValueError)
    ∧ (cumulative_gc_skew skew ≠ [] →
         ∃ start end_ : Z,
           find_ori_position sequence window_size = Ok (start, end_)).
Proof.
  intros Hw. destruct (compute_gc_skew_ok sequence window_size Hw)
    as (skew & Hrun).
  exists skew. split; [done|].
  split; [by apply cumulative_empty_iff|]. split.
  - intros Hnil. rewrite (find_ori_position_unfold _ _ _ Hrun). cbn zeta.
    by rewrite Hnil.
  - intros Hne.
    destruct (find_ori_position_ok _ _ _ Hw Hrun Hne) as (i & _ & Hpos & _).
    by eexists _, _.
Qed.

Lemma find_ori_position_empty_profile_witness :
  0 < 1000
  ∧ ∃ skew : list Z,
      compute_gc_skew "GATTACA" 1000 = Ok skew
      ∧ (cumulative_gc_skew skew = [] →
           find_ori_position "GATTACA" 1000 = Raise ValueError).
Proof.
  assert (0 < 1000) as Hw by lia. split; [exact Hw|].
  destruct (find_ori_position_empty_profile "GATTACA" 1000 Hw)
    as (skew & Hrun & _ & Hraise & _).
  exists skew. split; [exact Hrun | exact Hraise].
Defined.

Section counting_facts.

Lemma length_filter_fmap {A B} (f : A → B) (P : B → Prop)
    `{!∀ y, Decision (P y)} (l : list A) :
  length (filter P (f <$> l)) = length (filter (λ x, P (f x)) l).
Proof.
  induction l as [|x l IH]; [done|].
  rewrite fmap_cons, !filter_cons. repeat case_decide; simpl; lia.
Qed.

Lemma length_filter_ext {A} (P Q : A → Prop)
    `{!∀ x, Decision (P x)} `{!∀ x, Decision (Q x)} (l : list A) :
  (∀ x, x ∈ l → P x ↔ Q x) →
  length (filter P l) = length (filter Q l).
Proof.
  induction l as [|x l IH]; intros Hext; [done|].
  rewrite !filter_cons.
  assert (P x ↔ Q x) by (apply Hext; left).
  assert (length (filter P l) = length (filter Q l))
    by (apply IH; intros; apply Hext; by right).
  repeat case_decide; simpl; tauto || lia.
Qed.

Lemma filter_none {A} (P : A → Prop) `{!∀ x, Decision (P x)} (l : list A) :
  (∀ x, x ∈ l → ¬ P x) → filter P l = [].
Proof.
  induction l as [|x l IH]; intros Hnone; [done|].
  rewrite filter_cons_False by (apply Hnone; left).
  apply IH. intros; apply Hnone; by right.
Qed.

(** The counting loop on a [defaultdict(int)]: every key ends up with the
    number of loop indices that produced it. *)
Lemma count_loop_lookup (f : Z → string) (x : string) (js : list Z) :
  ∀ m0 : gmap string Z,
    fold_left (λ counts j, <[f j := default 0 (counts !! f j) + 1]> counts)
      js m0 !! x
    = let c := Z.of_nat (length (filter (λ j, f j = x) js)) in
      match m0 !! x with
      | Some c0 => Some (c0 + c)
      | None => if decide (c = 0) then None else Some c
      end.
Proof.
  induction js as [|j js IH]; intros m0; simpl.
  - destruct (m0 !! x); [f_equal; lia|done].
  - rewrite IH. rewrite filter_cons. destruct (decide (f j = x)) as [->|Hne].
    + rewrite lookup_insert_eq. cbn [length].
      destruct (m0 !! x) as [c0|]; cbn [default].
      * f_equal. unfold id. lia.
      * destruct (decide (Z.of_nat (S (length (filter (λ j, f j = x) js))) = 0));
          [lia|]. f_equal. lia.
    + by rewrite lookup_insert_ne.
Qed.

Lemma elem_of_frequent_kmers (counts : gmap string Z) (mo : Z) (x : string) :
  x ∈ frequent_kmers counts mo ↔ ∃ c, counts !! x = Some c ∧ mo ≤ c.
Proof.
  unfold frequent_kmers. rewrite elem_of_dom. split.
  - intros [c [Hc Hmo]%map_lookup_filter_Some]. eauto.
  - intros (c & Hc & Hmo). exists c. by apply map_lookup_filter_Some.
Qed.

End counting_facts.

Section occurrence_facts.

(** [occurrences] counts the positions [0 .. len(window)] at which the
    next [len(kmer)] symbols are [kmer]. *)
Lemma occurrences_all_positions (x : string) (w : string) :
  occurrences x w
  = Z.of_nat
      (length
         (filter (λ j, String.substring j (String.length x) w = x)
            (seq 0 (S (String.length w))))).
Proof.
  induction w as [|c w IH].
  - cbn [occurrences String.length seq]. rewrite filter_cons, filter_nil.
    pose proof (String.prefix_correct x "") as Hp.
    destruct (String.prefix x ""), (decide (String.substring 0 (String.length x) "" = x));
      simpl; try done.
    + exfalso. tauto.
    + exfalso. assert (false = true) by tauto. done.
  - cbn [occurrences String.length]. rewrite IH.
    change (seq 0 (S (S (String.length w))))
      with (0%nat :: seq 1 (S (String.length w))).
    rewrite filter_cons, <- fmap_S_seq.
    pose proof (String.prefix_correct x (String c w)) as Hp.
    destruct (String.prefix x (String c w)),
      (decide (String.substring 0 (String.length x) (String c w) = x));
      rewrite ?length_cons, length_filter_fmap; cbn [String.substring];
      try lia.
    + exfalso. tauto.
    + exfalso. assert (false = true) by tauto. done.
Qed.

(** Only the positions that leave room for [kmer] can match. *)
Lemma occurrences_fitting_positions (x : string) (w : string) :
  occurrences x w
  = Z.of_nat
      (length
         (filter (λ j, String.substring j (String.length x) w = x)
            (seq 0 (String.length w + 1 - String.length x)))).
Proof.
  rewrite occurrences_all_positions. f_equal.
  set (n := (String.length w + 1 - String.length x)%nat).
  replace (S (String.length w)) with (n + (S (String.length w) - n))%nat
    by lia.
  rewrite seq_app, filter_app, length_app.
  rewrite (filter_none _ (seq (0 + n) _)); [cbn [length]; lia|].
  intros j [Hlo Hhi]%elem_of_seq Heq.
  apply (f_equal String.length) in Heq. rewrite length_substring in Heq.
  lia.
Qed.

(** What the counting loop holds for a key, for a [k] that is a length. *)
Lemma count_kmers_lookup (w : string) (k : Z) (x : string) :
  0 ≤ k →
  count_kmers w k !! x
  = let c :=
      Z.of_nat
        (length
           (filter (λ j, String.substring j (Z.to_nat k) w = x)
              (seq 0 (Z.to_nat (Py.len w - k + 1))))) in
    if decide (c = 0) then None else Some c.
Proof.
  intros Hk. unfold count_kmers.
  rewrite (count_loop_lookup (λ j, Py.slice w j (j + k))).
  rewrite lookup_empty. unfold Py.range, seqZ.
  rewrite length_filter_fmap, Z.sub_0_r.
  rewrite (length_filter_ext _
             (λ j, String.substring j (Z.to_nat k) w = x)); [done|].
  intros j [_ Hj]%elem_of_seq.
  rewrite slice_substring by (unfold Py.len in *; lia).
  replace (Z.to_nat (Z.of_nat j + 0)) with j by lia.
  by replace (Z.to_nat (Z.of_nat j + 0 + k - (Z.of_nat j + 0)))
    with (Z.to_nat k) by lia.
Qed.

Lemma elem_of_substrings_of_length (w : string) (k : Z) (x : string) :
  0 ≤ k →
  x ∈ substrings_of_length k w
  ↔ ∃ j : nat,
      (Z.of_nat j + k ≤ Py.len w)
      ∧ String.substring j (Z.to_nat k) w = x.
Proof.
  intros Hk. unfold substrings_of_length.
  destruct (Z.ltb_spec k 0); [lia|].
  rewrite list_elem_of_fmap. split.
  - intros (j & -> & [_ Hj]%elem_of_seq). exists j. split; [lia|done].
  - intros (j & Hj & <-). exists j. split; [done|].
    apply elem_of_seq. lia.
Qed.

Lemma length_of_substring_of_length (w : string) (k : Z) (x : string) :
  0 ≤ k → x ∈ substrings_of_length k w → Py.len x = k.
Proof.
  intros Hk (j & Hj & <-)%elem_of_substrings_of_length; [|done].
  unfold Py.len in *. rewrite length_substring. lia.
Qed.

(** The code's frequent k-mers are the reference's. *)
Lemma frequent_kmers_reference (w : string) (k mo : Z) :
  0 ≤ k → frequent_kmers (count_kmers w k) mo = frequent_set w k mo.
Proof.
  intros Hk. apply set_eq. intros x.
  rewrite elem_of_frequent_kmers. unfold frequent_set.
  rewrite elem_of_list_to_set, list_elem_of_filter.
  rewrite count_kmers_lookup by done. cbn zeta.
  set (hits := filter (λ j, String.substring j (Z.to_nat k) w = x)
                 (seq 0 (Z.to_nat (Py.len w - k + 1)))).
  assert (x ∈ substrings_of_length k w ↔ hits ≠ []) as Hin.
  { rewrite elem_of_substrings_of_length by done. split.
    - intros (j & Hj & Hx) Hnil.
      eapply (filter_nil_not_elem_of _ _ j Hnil); [done|].
      apply elem_of_seq. lia.
    - intros Hne. destruct hits as [|j hits'] eqn:Hhits; [done|].
      assert (j ∈ hits) as [Hx [_ Hj]%elem_of_seq]%list_elem_of_filter
        by (rewrite Hhits; left).
      exists j. split; [lia|done]. }
  assert (x ∈ substrings_of_length k w →
          occurrences x w = Z.of_nat (length hits)) as Hocc.
  { intros Hx. rewrite occurrences_fitting_positions.
    pose proof (length_of_substring_of_length w k x Hk Hx) as Hlen.
    unfold Py.len in *. subst hits.
    replace (String.length x) with (Z.to_nat k) by lia.
    by replace (String.length w + 1 - Z.to_nat k)%nat
      with (Z.to_nat (Z.of_nat (String.length w) - k + 1)) by lia. }
  split.
  - intros (c & Hc & Hmo).
    destruct (decide (Z.of_nat (length hits) = 0)) as [|Hne]; [done|].
    injection Hc as <-.
    assert (x ∈ substrings_of_length k w) as Hx.
    { apply Hin. intros Hnil. rewrite Hnil in Hne. done. }
    split; [|done]. by rewrite Hocc.
  - intros [Hmo Hx]. exists (Z.of_nat (length hits)).
    rewrite Hocc in Hmo by done. split; [|done].
    destruct (decide (Z.of_nat (length hits) = 0)) as [Hz|]; [|done].
    exfalso. apply Hin in Hx. destruct hits; [done|simpl in Hz; lia].
Qed.

End occurrence_facts.

Section clump_facts.

(** Membership in the reference's frequent set, without the enumeration. *)
Lemma elem_of_frequent_set (w : string) (k mo : Z) (x : string) :
  0 ≤ k →
  x ∈ frequent_set w k mo
  ↔ Py.len x = k ∧ 0 < occurrences x w ∧ mo ≤ occurrences x w.
Proof.
  intros Hk. unfold frequent_set.
  rewrite elem_of_list_to_set, list_elem_of_filter.
  assert (x ∈ substrings_of_length k w
          ↔ Py.len x = k ∧ 0 < occurrences x w) as Hin.
  { split.
    - intros Hx. split; [by eapply length_of_substring_of_length|].
      pose proof (length_of_substring_of_length w k x Hk Hx) as Hlen.
      apply elem_of_substrings_of_length in Hx as (j & Hj & Hx); [|done].
      rewrite occurrences_fitting_positions.
      assert (j ∈ filter
                (λ j, String.substring j (String.length x) w = x)
                (seq 0 (String.length w + 1 - String.length x))) as Hhit.
      { apply list_elem_of_filter. unfold Py.len in *. split.
        - by replace (String.length x) with (Z.to_nat k) by lia.
        - apply elem_of_seq. lia. }
      destruct (filter _ _); [by apply elem_of_nil in Hhit|simpl; lia].
    - intros [Hlen Hocc]. rewrite occurrences_fitting_positions in Hocc.
      destruct (filter _ _) as [|j hits] eqn:Hhits; [simpl in Hocc; lia|].
      assert (j ∈ filter
                (λ j, String.substring j (String.length x) w = x)
                (seq 0 (String.length w + 1 - String.length x)))
        as [Hx [_ Hj]%elem_of_seq]%list_elem_of_filter
        by (rewrite Hhits; left).
      apply elem_of_substrings_of_length; [done|].
      exists j. unfold Py.len in *. split; [lia|].
      by replace (Z.to_nat k) with (String.length x) by lia. }
  rewrite Hin. tauto.
Qed.

(** The outer loop: one key per index whose set is not empty. *)
Lemma clump_loop_lookup (g : Z → gset string) (wl : Z) (offsets : list Z)
    (s e : Z) (S : gset string) :
  fold_left
    (λ (clumps : gmap (Z * Z) (gset string)) i,
       if decide (g i = ∅) then clumps else <[(i, i + wl) := g i]> clumps)
    offsets ∅ !! (s, e) = Some S
  ↔ s ∈ offsets ∧ e = s + wl ∧ S = g s ∧ g s ≠ ∅.
Proof.
  induction offsets as [|i offsets IH] using rev_ind.
  - simpl. rewrite lookup_empty. split; [done|].
    by intros [?%elem_of_nil _].
  - rewrite fold_left_app. simpl. rewrite elem_of_app, list_elem_of_singleton.
    destruct (decide (g i = ∅)) as [Hempty|Hne].
    + rewrite IH. split; [tauto|].
      intros ([?| ->] & ? & ? & ?); [tauto|done].
    + destruct (decide ((i, i + wl) = (s, e))) as [[= <- <-]|Hkey].
      * rewrite lookup_insert_eq. split.
        -- intros [= <-]. tauto.
        -- intros (_ & _ & -> & _). done.
      * rewrite lookup_insert_ne by done. rewrite IH. split; [tauto|].
        intros ([?| ->] & -> & ? & ?); [tauto|done].
Qed.

Lemma find_clumps_lookup sequence k wl mo (s e : Z) (S : gset string) :
  find_clumps sequence k wl mo !! (s, e) = Some S
  ↔ 0 ≤ s ∧ s ≤ Py.len sequence - wl ∧ e = s + wl
    ∧ S = frequent_kmers (count_kmers (Py.slice sequence s (s + wl)) k) mo
    ∧ S ≠ ∅.
Proof.
  unfold find_clumps. cbn zeta.
  rewrite (clump_loop_lookup
             (λ i, frequent_kmers
                     (count_kmers (Py.slice sequence i (i + wl)) k) mo)).
  unfold Py.range. rewrite elem_of_seqZ. split.
  - intros (? & ? & -> & ?). repeat split; (done || lia).
  - intros (? & ? & ? & -> & ?). repeat split; (done || lia).
Qed.

Lemma find_clumps_reference_lookup sequence k wl mo
    (s e : Z) (S : gset string) :
  find_clumps_reference sequence k wl mo !! (s, e) = Some S
  ↔ 0 ≤ s ∧ s ≤ Py.len sequence - wl ∧ e = s + wl
    ∧ S = frequent_set (window_at sequence s wl) k mo
    ∧ S ≠ ∅.
Proof.
  unfold find_clumps_reference.
  rewrite <- elem_of_list_to_map.
  - rewrite list_elem_of_fmap. split.
    + intros (i & [= -> -> ->] & [Hne Hi%elem_of_seqZ]%list_elem_of_filter).
      repeat split; (done || lia).
    + intros (? & ? & -> & -> & ?). exists s. split; [done|].
      apply list_elem_of_filter. split; [done|].
      apply elem_of_seqZ. lia.
  - rewrite <- list_fmap_compose.
    apply NoDup_fmap_2_strong.
    + intros i j _ _ [= ->]. done.
    + apply NoDup_filter, NoDup_seqZ.
Qed.

Lemma window_slice sequence s wl :
  0 ≤ wl → 0 ≤ s → s ≤ Py.len sequence - wl →
  Py.slice sequence s (s + wl) = window_at sequence s wl.
Proof.
  intros. unfold window_at. rewrite slice_substring by lia.
  do 2 f_equal. lia.
Qed.

Lemma frequent_kmers_empty mo : frequent_kmers ∅ mo = ∅.
Proof. unfold frequent_kmers. by rewrite map_filter_empty, dom_empty_L. Qed.

Lemma count_kmers_too_long w k : Py.len w < k → count_kmers w k = ∅.
Proof.
  intros Hk. unfold count_kmers, Py.range. by rewrite seqZ_nil by lia.
Qed.

Lemma find_clumps_window_too_long sequence k wl mo :
  Py.len sequence < wl → find_clumps sequence k wl mo = ∅.
Proof.
  intros Hwl. unfold find_clumps, Py.range. by rewrite seqZ_nil by lia.
Qed.

Lemma find_clumps_kmer_too_long sequence k wl mo :
  0 ≤ wl → wl < k → find_clumps sequence k wl mo = ∅.
Proof.
  intros Hwl Hk. apply map_eq. intros [s e]. rewrite lookup_empty.
  apply eq_None_not_Some. intros [S HS].
  apply find_clumps_lookup in HS as (? & ? & _ & -> & Hne).
  apply Hne. rewrite count_kmers_too_long; [apply frequent_kmers_empty|].
  rewrite len_slice by lia. lia.
Qed.

Lemma find_clumps_refines sequence k wl mo :
  0 ≤ k → 0 ≤ wl →
  find_clumps sequence k wl mo = find_clumps_reference sequence k wl mo.
Proof.
  intros Hk Hwl. apply map_eq. intros [s e]. apply option_eq. intros S.
  rewrite find_clumps_lookup, find_clumps_reference_lookup.
  assert (0 ≤ s → s ≤ Py.len sequence - wl →
          frequent_kmers (count_kmers (Py.slice sequence s (s + wl)) k) mo
          = frequent_set (window_at sequence s wl) k mo) as Hsame.
  { intros. by rewrite window_slice, frequent_kmers_reference. }
  split; intros (? & ? & ? & -> & HS).
  - rewrite Hsame in * by done. done.
  - rewrite <- Hsame in * by done. done.
Qed.

End clump_facts.

(** C1, as the code has it: for a k-mer length [k] and a window width
    [window_length] that are not negative, [find_clumps] is the reference
    map: it has the key [(i, i + window_length)] exactly for the offsets [0
    ≤ i ≤ len(sequence) - window_length] whose window holds a k-mer
    occurring at least [min_occurrence] times (overlaps counted), bound to
    the set of all such k-mers; so it is empty when [window_length >
    len(sequence)] or [k > window_length]. *)
Theorem find_clumps_equals_reference
    (sequence : string) (k window_length min_occurrence : Z) :
  0 ≤ k → 0 ≤ window_length →
  find_clumps sequence k window_length min_occurrence
  = find_clumps_reference sequence k window_length min_occurrence
  ∧ (∀ (s e : Z) (S : gset string),
       find_clumps sequence k window_length min_occurrence !! (s, e) = Some S
       ↔ 0 ≤ s ∧ s ≤ Py.len sequence - window_length
         ∧ e = s + window_length
         ∧ S ≠ ∅
         ∧ ∀ kmer : string,
             kmer ∈ S
             ↔ Py.len kmer = k
               ∧ 0 < occurrences kmer (window_at sequence s window_length)
               ∧ min_occurrence
                 ≤ occurrences kmer (window_at sequence s window_length))
  ∧ (Py.len sequence < window_length ∨ window_length < k →
       find_clumps sequence k window_length min_occurrence = ∅).
Proof.
  intros Hk Hwl. split; [by apply find_clumps_refines|]. split.
  - intros s e S. rewrite find_clumps_refines by done.
    rewrite find_clumps_reference_lookup. split.
    + intros (? & ? & -> & -> & ?). do 4 (split; [done|]).
      intros kmer. by apply elem_of_frequent_set.
    + intros (? & ? & -> & ? & HS). do 3 (split; [done|]). split; [|done].
      apply set_eq. intros x. rewrite HS. by rewrite elem_of_frequent_set.
  - intros [Hlong|Hlong].
    + by apply find_clumps_window_too_long.
    + by apply find_clumps_kmer_too_long.
Qed.

Lemma find_clumps_equals_reference_witness :
  0 ≤ 3 ∧ 0 ≤ 7
  ∧ find_clumps "ATGATGATG" 3 7 2 = find_clumps_reference "ATGATGATG" 3 7 2
  ∧ (Py.len "ATGATGATG" < 7 ∨ 7 < 3 → find_clumps "ATGATGATG" 3 7 2 = ∅).
Proof.
  assert (0 ≤ 3) as Hk by lia. assert (0 ≤ 7) as Hwl by lia.
  split; [exact Hk|]. split; [exact Hwl|].
  destruct (find_clumps_equals_reference "ATGATGATG" 3 7 2 Hk Hwl)
    as (Hsame & _ & Hempty).
  split; [exact Hsame | exact Hempty].
Defined.

(** C1 as stated fails for negative lengths, where Python's slices count
    from the end: with [window_length = -2] the windows [sequence[i:i-2]]
    are not empty, so the map is not empty although [k > window_length];
    with [k = -1] the recorded strings [window[j:j-1]] do not have length
    [k]. *)
Lemma find_clumps_negative_lengths :
  (-2 < 1
   ∧ find_clumps "AAAAA" 1 (-2) 1 !! (0, -2) = Some {[ "A" ]}
   ∧ find_clumps "AAAAA" 1 (-2) 1 ≠ ∅)
  ∧ (find_clumps "AAAA" (-1) 4 1 !! (0, 4) = Some {[ "AAA"; "" ]}
     ∧ Py.len "AAA" ≠ -1
     ∧ find_clumps "AAAA" (-1) 4 1 ≠ find_clumps_reference "AAAA" (-1) 4 1).
Proof.
  assert (find_clumps "AAAAA" 1 (-2) 1 !! (0, -2) = Some {[ "A" ]})
    as Hwindow by (vm_compute; reflexivity).
  assert (find_clumps "AAAA" (-1) 4 1 !! (0, 4) = Some {[ "AAA"; "" ]})
    as Hkmer by (vm_compute; reflexivity).
  assert (find_clumps_reference "AAAA" (-1) 4 1 !! (0, 4) = None)
    as Hreference by (vm_compute; reflexivity).
  split.
  - split; [lia|]. split; [exact Hwindow|].
    intros Hempty. rewrite Hempty, lookup_empty in Hwindow.
    discriminate Hwindow.
  - split; [exact Hkmer|]. split; [unfold Py.len; simpl; lia|].
    intros Hsame. rewrite Hsame, Hreference in Hkmer. discriminate Hkmer.
Qed.

(** * The region around the minimum *)

Section region_facts.

Lemma find_ori_position_bounds sequence w (ori_start ori_end : Z) :
  0 < w →
  find_ori_position sequence w = Ok (ori_start, ori_end) →
  0 ≤ ori_start ∧ ori_end = ori_start + w ∧ ori_end ≤ Py.len sequence.
Proof.
  intros Hw Hpos. destruct (compute_gc_skew_ok sequence w Hw) as [skew Hrun].
  destruct (decide (cumulative_gc_skew skew = [])) as [Hnil|Hne].
  - rewrite (find_ori_position_unfold _ _ _ Hrun) in Hpos. cbn zeta in Hpos.
    by rewrite Hnil in Hpos.
  - destruct (find_ori_position_ok _ _ _ Hw Hrun Hne)
      as (i & _ & Hpos' & _ & _ & _ & Hlo & Hhi).
    rewrite Hpos' in Hpos. injection Hpos as <- <-. lia.
Qed.

Lemma extract_ori_region_unfold sequence w flank (ori_start ori_end : Z) :
  find_ori_position sequence w = Ok (ori_start, ori_end) →
  extract_ori_region sequence w flank
  = Ok (Py.slice sequence
          (Z.max 0 (ori_start + w / 2 - flank))
          (Z.min (Py.len sequence) (ori_start + w / 2 + flank)),
        Z.max 0 (ori_start + w / 2 - flank),
        Z.min (Py.len sequence) (ori_start + w / 2 + flank)).
Proof. intros Hpos. unfold extract_ori_region. by rewrite Hpos. Qed.

Lemma extract_ori_region_inv sequence w flank region (start end_ : Z) :
  extract_ori_region sequence w flank = Ok (region, start, end_) →
  ∃ ori_start ori_end,
    find_ori_position sequence w = Ok (ori_start, ori_end)
    ∧ start = Z.max 0 (ori_start + w / 2 - flank)
    ∧ end_ = Z.min (Py.len sequence) (ori_start + w / 2 + flank)
    ∧ region = Py.slice sequence start end_.
Proof.
  unfold extract_ori_region.
  destruct (find_ori_position sequence w) as [[ori_start ori_end]|];
    [|done].
  cbn [bind]. intros [= <- <- <-]. by exists ori_start, ori_end.
Qed.

(** The centre of the located window lies inside the sequence. *)
Lemma ori_center_bounds sequence w (ori_start ori_end : Z) :
  0 < w →
  find_ori_position sequence w = Ok (ori_start, ori_end) →
  0 ≤ ori_start + w / 2 ∧ ori_start + w / 2 < Py.len sequence.
Proof.
  intros Hw Hpos.
  destruct (find_ori_position_bounds _ _ _ _ Hw Hpos) as (? & -> & ?).
  assert (0 ≤ w / 2) by (apply Z.div_pos; lia).
  assert (w / 2 < w) by (apply Z.div_lt; lia). lia.
Qed.

Lemma get_in_range (s : string) (n : nat) :
  (n < String.length s)%nat → is_Some (String.get n s).
Proof.
  revert n. induction s as [|c s IH]; intros n Hn; simpl in *; [lia|].
  destruct n as [|n]; [by eexists|]. apply IH. lia.
Qed.

Lemma len_empty_iff (s : string) : Py.len s = 0 ↔ s = "".
Proof. unfold Py.len. destruct s; simpl; split; (done || lia). Qed.

End region_facts.

(** C3: with a positive [window_size] and a positive [flank], when
    [find_ori_position] returns [(ori_start, ori_end)], [extract_ori_region]
    returns [(subsequence, start, end)] with [center = ori_start +
    window_size // 2], [start = max(0, center - flank)], [end =
    min(len(sequence), center + flank)], a subsequence of [end - start]
    symbols and [0 ≤ start < end ≤ len(sequence)]; the region is at most [2 *
    flank] long and may be shorter at a boundary. *)
Theorem extract_ori_region_clamped
    (sequence : string) (window_size flank ori_start ori_end : Z) :
  0 < window_size → 0 < flank →
  find_ori_position sequence window_size = Ok (ori_start, ori_end) →
  ∃ (subsequence : string) (start end_ : Z),
    extract_ori_region sequence window_size flank
    = Ok (subsequence, start, end_)
    ∧ start = Z.max 0 (ori_start + window_size / 2 - flank)
    ∧ end_ = Z.min (Py.len sequence) (ori_start + window_size / 2 + flank)
    ∧ Py.len subsequence = end_ - start
    ∧ 0 ≤ start ∧ start < end_ ∧ end_ ≤ Py.len sequence
    ∧ end_ - start ≤ 2 * flank.
Proof.
  intros Hw Hflank Hpos.
  destruct (ori_center_bounds _ _ _ _ Hw Hpos) as [Hlo Hhi].
  eexists _, _, _.
  split; [by apply (extract_ori_region_unfold _ _ _ ori_start ori_end)|].
  split; [done|]. split; [done|]. split; [apply len_slice; lia|]. lia.
Qed.

Lemma extract_ori_region_clamped_witness :
  0 < 3 ∧ 0 < 2
  ∧ find_ori_position "GGCATGCCCGG" 3 = Ok (6, 9)
  ∧ ∃ (subsequence : string) (start end_ : Z),
      extract_ori_region "GGCATGCCCGG" 3 2 = Ok (subsequence, start, end_)
      ∧ start = 5 ∧ end_ = 9 ∧ Py.len subsequence = end_ - start.
Proof.
  assert (0 < 3) as Hw by lia. assert (0 < 2) as Hflank by lia.
  assert (find_ori_position "GGCATGCCCGG" 3 = Ok (6, 9)) as Hpos
    by reflexivity.
  split; [exact Hw|]. split; [exact Hflank|]. split; [exact Hpos|].
  destruct (extract_ori_region_clamped "GGCATGCCCGG" 3 2 6 9 Hw Hflank Hpos)
    as (subsequence & start & end_ & Hrun & Hstart & Hend & Hlen & _).
  exists subsequence, start, end_.
  split; [exact Hrun|]. split; [exact Hstart|]. split; [exact Hend|].
  exact Hlen.
Defined.

(** C10: with a positive [window_size] and a flank that is not negative,
    the subsequence that [extract_ori_region] returns, which is also the
    pipeline's [ori_sequence], is [sequence] restricted to the positions
    [start .. end - 1]: [0 ≤ start ≤ end ≤ len(sequence)], it is the slice
    [sequence[start:end]], it has [end - start] symbols, and its symbol [j]
    is the symbol [start + j] of [sequence]. *)
Theorem extract_ori_region_faithful
    (sequence : string) (window_size flank : Z)
    (subsequence : string) (start end_ : Z) :
  0 < window_size → 0 ≤ flank →
  extract_ori_region sequence window_size flank
  = Ok (subsequence, start, end_) →
  0 ≤ start ∧ start ≤ end_ ∧ end_ ≤ Py.len sequence
  ∧ subsequence = Py.slice sequence start end_
  ∧ subsequence
    = String.substring (Z.to_nat start) (Z.to_nat (end_ - start)) sequence
  ∧ Py.len subsequence = end_ - start
  ∧ (∀ j : nat,
       Z.of_nat j < end_ - start →
       ∃ c : ascii,
         String.get j subsequence = Some c
         ∧ String.get (Z.to_nat start + j) sequence = Some c)
  ∧ ∀ k clump_window min_occurrence : Z,
      ∃ r : analysis_result,
        find_ori_with_clumps sequence window_size flank k clump_window
          min_occurrence = Ok r
        ∧ ori_sequence r = subsequence
        ∧ ori_start r = start ∧ ori_end r = end_.
Proof.
  intros Hw Hflank Hrun. pose proof Hrun as Hregion.
  apply extract_ori_region_inv in Hrun
    as (ori_start & ori_end & Hpos & Hstart & Hend & Hsub).
  destruct (ori_center_bounds _ _ _ _ Hw Hpos) as [Hlo Hhi].
  assert (0 ≤ start ∧ start ≤ end_ ∧ end_ ≤ Py.len sequence)
    as (? & ? & ?) by lia.
  assert (subsequence
          = String.substring (Z.to_nat start) (Z.to_nat (end_ - start))
              sequence) as Hsubstring
    by (rewrite Hsub; by apply slice_substring).
  assert (Py.len subsequence = end_ - start) as Hlen
    by (rewrite Hsub; by apply len_slice).
  do 6 (split; [done|]). split.
  - intros j Hj.
    destruct (get_in_range subsequence j) as [c Hc];
      [unfold Py.len in Hlen; lia|].
    exists c. split; [done|]. rewrite <- Hc, Hsubstring.
    rewrite String.substring_correct1 by lia. f_equal. lia.
  - intros k clump_window min_occurrence. eexists. split.
    + unfold find_ori_with_clumps. rewrite Hregion. reflexivity.
    + done.
Qed.

Lemma extract_ori_region_faithful_witness :
  0 < 3 ∧ 0 ≤ 2
  ∧ extract_ori_region "GGCATGCCCGG" 3 2 = Ok ("GCCC", 5, 9)
  ∧ "GCCC" = String.substring 5 4 "GGCATGCCCGG"
  ∧ Py.len "GCCC" = 9 - 5.
Proof.
  assert (0 < 3) as Hw by lia. assert (0 ≤ 2) as Hflank by lia.
  assert (extract_ori_region "GGCATGCCCGG" 3 2 = Ok ("GCCC", 5, 9)) as Hrun
    by reflexivity.
  split; [exact Hw|]. split; [exact Hflank|]. split; [exact Hrun|].
  destruct (extract_ori_region_faithful "GGCATGCCCGG" 3 2 "GCCC" 5 9
              Hw Hflank Hrun)
    as (_ & _ & _ & _ & Hsubstring & Hlen & _).
  split; [exact Hsubstring | exact Hlen].
Defined.

(** C10, without the condition on the flank: with [flank = -2] the
    sequence ["CCCATGATGATG"] and [window_size = 3] give the window [(0,
    3)], the centre [1], [start = max(0, 1 + 2) = 3] and [end = min(12, 1 -
    2) = -1]; no position lies in [3 .. -2], yet the slice
    [sequence[3:-1]] that is returned has eight symbols. *)
Lemma extract_ori_region_negative_flank :
  0 < 3
  ∧ find_ori_position "CCCATGATGATG" 3 = Ok (0, 3)
  ∧ extract_ori_region "CCCATGATGATG" 3 (-2) = Ok ("ATGATGAT", 3, -1)
  ∧ ¬ (3 ≤ -1)
  ∧ Py.len "ATGATGAT" = 8
  ∧ Py.len "ATGATGAT" ≠ -1 - 3
  ∧ "ATGATGAT"
    ≠ String.substring (Z.to_nat 3) (Z.to_nat (-1 - 3)) "CCCATGATGATG"
  ∧ ∃ r : analysis_result,
      find_ori_with_clumps "CCCATGATGATG" 3 (-2) 3 7 2 = Ok r
      ∧ ori_sequence r = "ATGATGAT"
      ∧ ori_start r = 3 ∧ ori_end r = -1.
Proof.
  assert (extract_ori_region "CCCATGATGATG" 3 (-2) = Ok ("ATGATGAT", 3, -1))
    as Hrun by reflexivity.
  split; [lia|]. split; [reflexivity|]. split; [exact Hrun|].
  split; [lia|]. split; [reflexivity|].
  split; [vm_compute; intros Hlen; discriminate Hlen|].
  split; [vm_compute; intros Hsub; discriminate Hsub|].
  eexists. split.
  - unfold find_ori_with_clumps. rewrite Hrun. reflexivity.
  - split; [reflexivity|]. split; reflexivity.
Qed.

(** * The pipeline *)

Section pipeline_facts.

Lemma find_ori_with_clumps_inv sequence skew_window flank k clump_window
    min_occurrence (r : analysis_result) :
  find_ori_with_clumps sequence skew_window flank k clump_window
    min_occurrence = Ok r →
  ∃ region start end_,
    extract_ori_region sequence skew_window flank = Ok (region, start, end_)
    ∧ r = {| ori_start := start; ori_end := end_; ori_sequence := region;
             clumps := find_clumps region k clump_window min_occurrence |}.
Proof.
  unfold find_ori_with_clumps.
  destruct (extract_ori_region sequence skew_window flank)
    as [[[region start] end_]|]; [|done].
  cbn [bind]. intros [= <-]. by exists region, start, end_.
Qed.

(** Every key of a clump map is an offset into the scanned sequence and
    the offset one window further. *)
Lemma find_clumps_keys sequence k wl mo (s e : Z) (S : gset string) :
  find_clumps sequence k wl mo !! (s, e) = Some S →
  0 ≤ s ∧ s ≤ Py.len sequence - wl ∧ e = s + wl.
Proof. intros (? & ? & ? & _)%find_clumps_lookup. done. Qed.

End pipeline_facts.



(** C7, as the code has it: when the sequence holds at least one skew
    window ([0 < skew_window ≤ len(sequence)]) and [flank] and
    [clump_window] are positive, [find_ori_with_clumps] returns a record
    with a non-empty [ori_sequence], [ori_start < ori_end], and clump keys
    [(s, e)] with [s < e]. *)
Theorem find_ori_with_clumps_well_formed
    (sequence : string)
    (skew_window flank k clump_window min_occurrence : Z) :
  0 < skew_window → skew_window ≤ Py.len sequence →
  0 < flank → 0 < clump_window →
  ∃ r : analysis_result,
    find_ori_with_clumps sequence skew_window flank k clump_window
      min_occurrence = Ok r
    ∧ ori_sequence r ≠ ""
    ∧ ori_start r < ori_end r
    ∧ ∀ (s e : Z) (S : gset string), clumps r !! (s, e) = Some S → s < e.
Proof.
  intros Hw Hfits Hflank Hcw.
  destruct (compute_gc_skew_ok sequence skew_window Hw) as [skew Hrun].
  assert (cumulative_gc_skew skew ≠ []) as Hne.
  { intros Hnil%(cumulative_empty_iff sequence skew_window); [lia|done..]. }
  destruct (find_ori_position_ok _ _ _ Hw Hrun Hne) as (i & _ & Hpos & _).
  destruct (ori_center_bounds _ _ _ _ Hw Hpos) as [Hlo Hhi].
  eexists. split.
  { unfold find_ori_with_clumps.
    rewrite (extract_ori_region_unfold _ _ _ _ _ Hpos). cbn [bind]. done. }
  cbn [ori_sequence ori_start ori_end clumps]. split; [|split].
  - intros Hempty%len_empty_iff. rewrite len_slice in Hempty; lia.
  - lia.
  - intros s e S (_ & _ & ->)%find_clumps_keys. lia.
Qed.

Lemma find_ori_with_clumps_well_formed_witness :
  0 < 3 ∧ 3 ≤ Py.len "GGCATGCCCGG" ∧ 0 < 5 ∧ 0 < 3
  ∧ ∃ r : analysis_result,
      find_ori_with_clumps "GGCATGCCCGG" 3 5 1 3 2 = Ok r
      ∧ ori_sequence r ≠ "" ∧ ori_start r < ori_end r.
Proof.
  assert (0 < 3) as Hw by lia.
  assert (3 ≤ Py.len "GGCATGCCCGG") as Hfits by (vm_compute; discriminate).
  assert (0 < 5) as Hflank by lia.
  split; [exact Hw|]. split; [exact Hfits|]. split; [exact Hflank|].
  split; [exact Hw|].
  destruct (find_ori_with_clumps_well_formed "GGCATGCCCGG" 3 5 1 3 2
              Hw Hfits Hflank Hw) as (r & Hrun & Hseq & Hlt & _).
  exists r. split; [exact Hrun|]. split; [exact Hseq | exact Hlt].
Defined.

(** C7 as stated fails: a valid one-symbol sequence with the default
    parameters leaves the skew profile empty, and the pipeline raises. *)
Lemma find_ori_with_clumps_short_sequence_raises :
  "A" ≠ ""
  ∧ find_ori_with_clumps "A" 1000 5000 9 1000 3 = Raise ValueError
  ∧ ¬ ∃ r : analysis_result,
        find_ori_with_clumps "A" 1000 5000 9 1000 3 = Ok r.
Proof.
  split; [done|]. split; [reflexivity|]. intros [r Hr]. vm_compute in Hr.
  discriminate.
Qed.

(** * Arguments that are not positive *)

Section unchecked_argument_facts.

Lemma compute_gc_skew_zero sequence :
  compute_gc_skew sequence 0 = Raise ValueError.
Proof. done. Qed.

Lemma compute_gc_skew_negative sequence w :
  w < 0 → compute_gc_skew sequence w = Ok [].
Proof.
  intros Hw. unfold compute_gc_skew. pose proof (len_nonneg sequence).
  by rewrite range_step_negative by lia.
Qed.

Lemma find_ori_position_not_positive sequence w :
  w ≤ 0 → find_ori_position sequence w = Raise ValueError.
Proof.
  intros Hw. unfold find_ori_position.
  destruct (decide (w = 0)) as [->|]; [done|].
  by rewrite compute_gc_skew_negative by lia.
Qed.

Lemma occurrences_empty_kmer (w : string) : occurrences "" w = Py.len w + 1.
Proof.
  unfold Py.len. induction w as [|c w IH]; [done|].
  cbn [occurrences String.prefix String.length]. rewrite IH. lia.
Qed.

Lemma frequent_set_empty_kmer (w : string) (mo : Z) :
  mo ≤ Py.len w + 1 → frequent_set w 0 mo = {[ "" ]}.
Proof.
  intros Hmo. pose proof (len_nonneg w). apply set_eq. intros x.
  rewrite elem_of_frequent_set, elem_of_singleton by done. split.
  - by intros [?%len_empty_iff _].
  - intros ->. rewrite occurrences_empty_kmer. split; [done|lia].
Qed.

End unchecked_argument_facts.

(** C8, as the code has it: no component checks its arguments.
    [compute_gc_skew] raises only for [window_size = 0] (the [ValueError] of
    [range] for a zero step) and returns the empty profile for every negative
    [window_size]; [find_ori_position] raises that [ValueError], or the one of
    [min] on the empty profile, for every [window_size ≤ 0];
    [extract_ori_region] returns for any [flank] once [find_ori_position]
    has returned; [find_clumps] returns a map for every [k] and
    [window_length]: the empty map for [window_length = 0 < k], and for [k =
    0] a map that binds [(0, window_length)] to the set holding the empty
    string. *)
Theorem arguments_are_not_validated (sequence : string) :
  compute_gc_skew sequence 0 = Raise ValueError
  ∧ (∀ window_size, window_size < 0 →
       compute_gc_skew sequence window_size = Ok [])
  ∧ (∀ window_size, window_size ≤ 0 →
       find_ori_position sequence window_size = Raise ValueError)
  ∧ (∀ window_size flank ori_start ori_end,
       find_ori_position sequence window_size = Ok (ori_start, ori_end) →
       ∃ region start end_,
         extract_ori_region sequence window_size flank
         = Ok (region, start, end_))
  ∧ (∀ k min_occurrence, 0 < k →
       find_clumps sequence k 0 min_occurrence = ∅)
  ∧ (∀ window_length min_occurrence,
       0 ≤ window_length → window_length ≤ Py.len sequence →
       min_occurrence ≤ window_length + 1 →
       find_clumps sequence 0 window_length min_occurrence
         !! (0, window_length) = Some {[ "" ]}).
Proof.
  split; [apply compute_gc_skew_zero|].
  split; [apply compute_gc_skew_negative|].
  split; [apply find_ori_position_not_positive|].
  split; [|split].
  - intros w flank ori_start ori_end Hpos. eexists _, _, _.
    by apply (extract_ori_region_unfold _ _ _ ori_start ori_end).
  - intros k mo Hk. by apply find_clumps_kmer_too_long.
  - intros wl mo Hwl Hfits Hmo.
    assert (frequent_kmers
              (count_kmers (Py.slice sequence 0 (0 + wl)) 0) mo
            = {[ "" ]}) as Hset.
    { rewrite frequent_kmers_reference by done.
      apply frequent_set_empty_kmer. rewrite len_slice; lia. }
    apply find_clumps_lookup. split; [done|]. split; [lia|].
    split; [lia|]. split; [by rewrite Hset|]. apply non_empty_singleton_L.
Qed.

(** C8 as stated fails: arguments that are not positive are accepted and a
    value is returned. *)
Lemma non_positive_arguments_return :
  compute_gc_skew "GATTACA" (-1) = Ok []
  ∧ find_clumps "GATTACA" 9 0 3 = ∅
  ∧ find_clumps "GATTACA" 0 7 3 = {[ (0, 7) := {[ "" ]} ]}
  ∧ extract_ori_region "GATTACA" 1 0 = Ok ("", 5, 5).
Proof. repeat split. Qed.

(** * Further properties of the skew profile *)

Section append_facts.

Lemma length_append (s1 s2 : string) :
  String.length (s1 +:+ s2) = (String.length s1 + String.length s2)%nat.
Proof. induction s1 as [|c s1 IH]; simpl; [done|]. by rewrite IH. Qed.

Lemma len_append (s1 s2 : string) :
  Py.len (s1 +:+ s2) = Py.len s1 + Py.len s2.
Proof. unfold Py.len. rewrite length_append. lia. Qed.

Lemma count_append (c : ascii) (s1 s2 : string) :
  Py.count c (s1 +:+ s2) = Py.count c s1 + Py.count c s2.
Proof. induction s1 as [|a s1 IH]; simpl; [done|]. rewrite IH. lia. Qed.

Lemma count_nonneg (c : ascii) (s : string) : 0 ≤ Py.count c s.
Proof.
  induction s as [|a s IH]; simpl; [done|]. destruct (decide (a = c)); lia.
Qed.

(** Two different symbols cannot be counted more often than the string is
    long. *)
Lemma count_two_le_len (c1 c2 : ascii) (s : string) :
  c1 ≠ c2 → Py.count c1 s + Py.count c2 s ≤ Py.len s.
Proof.
  intros Hne. unfold Py.len.
  induction s as [|a s IH]; simpl String.length; simpl Py.count; [done|].
  destruct (decide (a = c1)), (decide (a = c2)); try lia. congruence.
Qed.

(** A substring that ends inside the first part ignores the second. *)
Lemma substring_append_l (s1 s2 : string) : ∀ n m,
  (n + m ≤ String.length s1)%nat →
  String.substring n m (s1 +:+ s2) = String.substring n m s1.
Proof.
  induction s1 as [|c s1 IH]; intros n m Hnm; simpl in Hnm.
  - assert (n = 0%nat) as -> by lia. assert (m = 0%nat) as -> by lia.
    by destruct s2.
  - destruct n as [|n]; simpl.
    + destruct m as [|m]; [done|]. f_equal. apply IH. lia.
    + apply IH. lia.
Qed.

(** A substring that starts after the first part lies in the second. *)
Lemma substring_append_r (s1 s2 : string) : ∀ n m,
  String.substring (String.length s1 + n) m (s1 +:+ s2)
  = String.substring n m s2.
Proof. induction s1 as [|c s1 IH]; intros n m; simpl; [done|]. apply IH. Qed.

(** Cutting a prefix in two. *)
Lemma substring_split (s : string) : ∀ n a b,
  String.substring n (a + b) s
  = String.substring n a s +:+ String.substring (n + a) b s.
Proof.
  induction s as [|c s IH]; intros n a b.
  - by rewrite !substring_empty.
  - destruct n as [|n]; simpl.
    + destruct a as [|a]; simpl; [done|].
      change (String c (String.substring 0 a s) +:+ String.substring a b s)
        with (String c (String.substring 0 a s +:+ String.substring a b s)).
      f_equal. apply (IH 0%nat).
    + apply IH.
Qed.

Lemma substring_all (s : string) :
  String.substring 0 (String.length s) s = s.
Proof. induction s as [|c s IH]; simpl; by f_equal. Qed.

Lemma slice_all (s : string) : Py.slice s 0 (Py.len s) = s.
Proof.
  pose proof (len_nonneg s). rewrite slice_substring by lia.
  unfold Py.len. rewrite Z.sub_0_r, Nat2Z.id. apply substring_all.
Qed.

Lemma slice_slice s lo hi j k :
  0 ≤ lo → lo ≤ hi → hi ≤ Py.len s → 0 ≤ j → 0 ≤ k → j + k ≤ hi - lo →
  Py.slice (Py.slice s lo hi) j (j + k) = Py.slice s (lo + j) (lo + j + k).
Proof.
  intros. rewrite (slice_substring (Py.slice s lo hi))
    by (rewrite ?len_slice; lia).
  rewrite !slice_substring by lia.
  rewrite substring_substring by lia. f_equal; lia.
Qed.

End append_facts.

Section skew_profile_facts.

(** The skew of a window lies between minus and plus its length. *)
Lemma gc_skew_of_window_bounds (window : string) :
  - Py.len window ≤ gc_skew_of_window window ≤ Py.len window.
Proof.
  rewrite gc_skew_of_window_diff.
  pose proof (count_nonneg "G"%char window).
  pose proof (count_nonneg "C"%char window).
  pose proof (count_two_le_len "G"%char "C"%char window ltac:(done)). lia.
Qed.

Lemma gc_skew_of_window_append (s1 s2 : string) :
  gc_skew_of_window (s1 +:+ s2) = gc_skew_of_window s1 + gc_skew_of_window s2.
Proof. rewrite !gc_skew_of_window_diff, !count_append. lia. Qed.

(** The profile written with plain substrings. *)
Lemma compute_gc_skew_substrings sequence w :
  0 < w →
  compute_gc_skew sequence w
  = Ok ((λ i : nat,
           gc_skew_of_window
             (String.substring (i * Z.to_nat w) (Z.to_nat w) sequence))
          <$> seq 0 (Z.to_nat (Py.len sequence / w))).
Proof.
  intros Hw. rewrite compute_gc_skew_fmap by done. f_equal.
  unfold seqZ. rewrite <- list_fmap_compose.
  apply Forall_fmap_ext_1, Forall_forall. intros i [_ Hi]%elem_of_seq.
  cbn [compose].
  pose proof (len_nonneg sequence) as Hlen.
  assert (0 ≤ Py.len sequence / w) by (apply Z.div_pos; lia).
  destruct (window_in_range sequence w (Z.of_nat i) Hw) as [? ?]; [lia|].
  rewrite Z.add_0_r, slice_substring by lia. do 2 f_equal; lia.
Qed.

End skew_profile_facts.

Section prefix_sum_facts.

Lemma sum_app (l1 l2 : list Z) : Py.sum (l1 ++ l2) = Py.sum l1 + Py.sum l2.
Proof.
  unfold Py.sum. induction l1 as [|x l1 IH]; simpl; [done|]. rewrite IH. lia.
Qed.

Lemma lookup_cumulative_gc_skew (l : list Z) (i : nat) :
  (i < length l)%nat →
  cumulative_gc_skew l !! i = Some (Py.sum (take (S i) l)).
Proof.
  intros Hi. rewrite cumulative_gc_skew_running.
  by rewrite lookup_running_totals.
Qed.

(** The elements after position [j] decide how the running sum moves from
    [j] to a later position [i]. *)
Lemma sum_take_split (l : list Z) (j i : nat) :
  (j ≤ i)%nat →
  Py.sum (take (S i) l)
  = Py.sum (take (S j) l) + Py.sum (drop (S j) (take (S i) l)).
Proof.
  intros Hji. rewrite <- sum_app. f_equal.
  rewrite <- (take_drop (S j) (take (S i) l)) at 1.
  by rewrite take_take, Nat.min_l by lia.
Qed.

Lemma sum_nonneg (l : list Z) : Forall (λ v, 0 ≤ v) l → 0 ≤ Py.sum l.
Proof. unfold Py.sum. induction 1; simpl; lia. Qed.

Lemma sum_negative (l : list Z) :
  l ≠ [] → Forall (λ v, v < 0) l → Py.sum l < 0.
Proof.
  unfold Py.sum. intros Hne Hall. destruct Hall as [|x l Hx Hall]; [done|].
  simpl. assert (foldr Z.add 0 l ≤ 0); [|lia].
  clear Hne Hx. induction Hall; simpl; lia.
Qed.

(** Every element of [drop (S j) (take (S i) l)] sits in [l] at a position
    from [1] on. *)
Lemma Forall_later_elements (P : Z → Prop) (l : list Z) (j i : nat) :
  (∀ (p : nat) v, (1 ≤ p)%nat → l !! p = Some v → P v) →
  Forall P (drop (S j) (take (S i) l)).
Proof.
  intros Hlater. apply Forall_lookup. intros p v Hp.
  rewrite lookup_drop in Hp. apply lookup_take_Some in Hp as [Hp _].
  apply (Hlater (S j + p)%nat); [lia|done].
Qed.

(** The sum of the first [i] window skews is the skew of the first [i]
    windows taken as one string. *)
Lemma prefix_skew_sum (sequence : string) (w : nat) (i : nat) :
  Py.sum
    ((λ j : nat,
        gc_skew_of_window (String.substring (j * w) w sequence))
       <$> seq 0 i)
  = gc_skew_of_window (String.substring 0 (i * w) sequence).
Proof.
  induction i as [|i IH].
  - simpl. by destruct sequence.
  - rewrite seq_S, fmap_app, sum_app, IH. cbn [fmap list_fmap Py.sum foldr].
    replace (S i * w)%nat with (i * w + w)%nat by lia.
    rewrite (substring_split sequence 0), gc_skew_of_window_append.
    cbn [Nat.add]. lia.
Qed.

End prefix_sum_facts.

Section cumulative_profile_facts.

(** The cumulative profile, read off the sequence: element [j] is the
    number of ['G'] minus the number of ['C'] in the first [j + 1]
    windows. *)
Lemma cumulative_gc_skew_prefix_count sequence w skew (j : nat) :
  0 < w →
  compute_gc_skew sequence w = Ok skew →
  Z.of_nat j < Py.len sequence / w →
  cumulative_gc_skew skew !! j = Some (prefix_skew sequence w j).
Proof.
  intros Hw Hrun Hj.
  pose proof (compute_gc_skew_length _ _ _ Hw Hrun) as Hlen.
  rewrite lookup_cumulative_gc_skew by lia. f_equal.
  rewrite compute_gc_skew_substrings in Hrun by done. injection Hrun as <-.
  rewrite <- fmap_take, take_seq, Nat.min_l by lia.
  rewrite prefix_skew_sum, gc_skew_of_window_diff.
  destruct (window_in_range sequence w (Z.of_nat j) Hw) as [? ?]; [lia|].
  unfold prefix_skew. cbn zeta. rewrite slice_substring by lia.
  by replace (Z.to_nat ((Z.of_nat j + 1) * w - 0))
    with (S j * Z.to_nat w)%nat by lia.
Qed.

(** The skew of any stretch of the sequence is at most its length. *)
Lemma prefix_skew_bounds sequence w (j : nat) :
  0 < w → Z.of_nat j < Py.len sequence / w →
  - Py.len sequence ≤ prefix_skew sequence w j ≤ Py.len sequence.
Proof.
  intros Hw Hj. unfold prefix_skew. cbn zeta.
  destruct (window_in_range sequence w (Z.of_nat j) Hw) as [? ?]; [lia|].
  rewrite <- gc_skew_of_window_diff.
  pose proof (gc_skew_of_window_bounds
                (Py.slice sequence 0 ((Z.of_nat j + 1) * w))) as Hb.
  rewrite len_slice in Hb by lia. lia.
Qed.

(** The profile of a sequence of at most [2 ^ 53] symbols is summed
    exactly by the float accumulator: there the exact cumulative profile
    is the one the source computes. *)
Lemma cumulative_gc_skew_float_of_profile sequence w skew :
  0 < w → Py.len sequence ≤ 2 ^ 53 →
  compute_gc_skew sequence w = Ok skew →
  exactly_summable skew
  ∧ cumulative_gc_skew_float skew
    = Ok (PyFloat.Finite <$> cumulative_gc_skew skew).
Proof.
  intros Hw Hlen Hrun.
  assert (exactly_summable skew) as Hexact;
    [|split; [done|by apply cumulative_gc_skew_float_exact]].
  pose proof (len_nonneg sequence) as Hnn.
  pose proof (compute_gc_skew_length _ _ _ Hw Hrun) as Hcount.
  split; apply Forall_lookup; intros j v Hv.
  - pose proof Hrun as Hfmap.
    rewrite compute_gc_skew_substrings in Hfmap by done.
    injection Hfmap as <-.
    apply list_lookup_fmap_Some in Hv as (i & -> & _).
    pose proof (gc_skew_of_window_bounds
                  (String.substring (i * Z.to_nat w) (Z.to_nat w) sequence))
      as Hb.
    unfold Py.len in Hb, Hlen. rewrite length_substring in Hb.
    unfold within_double. lia.
  - rewrite <- cumulative_gc_skew_running in Hv.
    pose proof (lookup_lt_Some _ _ _ Hv) as Hj.
    rewrite length_cumulative_gc_skew in Hj.
    rewrite (cumulative_gc_skew_prefix_count sequence w skew j) in Hv
      by (done || lia).
    injection Hv as <-.
    pose proof (prefix_skew_bounds sequence w j Hw ltac:(lia)).
    unfold within_double. lia.
Qed.

End cumulative_profile_facts.

(** C2: with a positive [window_size] and a non-empty cumulative profile,
    [find_ori_position] returns [(i * window_size, i * window_size +
    window_size)] for the lowest index [i] at which the cumulative profile
    takes its least value, where element [j] of the cumulative profile is
    the running skew, the number of ['G'] minus the number of ['C'] in
    [sequence[0 : (j + 1) * window_size]]; so [0 ≤ start < end ≤
    len(sequence)], [end - start = window_size] and [window_size] divides
    [start]. For a sequence of at most [2 ^ 53] symbols the float
    accumulator holds this very profile. *)
Theorem find_ori_position_first_minimum
    (sequence : string) (window_size : Z) (skew : list Z) :
  0 < window_size →
  compute_gc_skew sequence window_size = Ok skew →
  cumulative_gc_skew skew ≠ [] →
  ∃ (i : nat) (least start end_ : Z),
    find_ori_position sequence window_size = Ok (start, end_)
    ∧ start = Z.of_nat i * window_size
    ∧ end_ = Z.of_nat i * window_size + window_size
    ∧ Z.of_nat (length (cumulative_gc_skew skew))
      = Py.len sequence / window_size
    ∧ (∀ j : nat,
         Z.of_nat j < Py.len sequence / window_size →
         cumulative_gc_skew skew !! j
         = Some (prefix_skew sequence window_size j))
    ∧ Z.of_nat i < Py.len sequence / window_size
    ∧ least = prefix_skew sequence window_size i
    ∧ (∀ j : nat,
         Z.of_nat j < Py.len sequence / window_size →
         least ≤ prefix_skew sequence window_size j)
    ∧ (∀ j : nat,
         (j < i)%nat → least < prefix_skew sequence window_size j)
    ∧ cumulative_gc_skew skew !! i = Some least
    ∧ (∀ (j : nat) y, cumulative_gc_skew skew !! j = Some y → least ≤ y)
    ∧ (∀ (j : nat) y,
         (j < i)%nat → cumulative_gc_skew skew !! j = Some y → least < y)
    ∧ 0 ≤ start ∧ start < end_ ∧ end_ ≤ Py.len sequence
    ∧ end_ - start = window_size
    ∧ (window_size | start)
    ∧ (Py.len sequence ≤ 2 ^ 53 →
       cumulative_gc_skew_float skew
       = Ok (PyFloat.Finite <$> cumulative_gc_skew skew)).
Proof.
  intros Hw Hrun Hne.
  destruct (find_ori_position_ok _ _ _ Hw Hrun Hne)
    as (i & least & Hpos & Hi & Hleast & Hfirst & Hlo & Hhi).
  pose proof (compute_gc_skew_length _ _ _ Hw Hrun) as Hcount.
  pose proof (lookup_lt_Some _ _ _ Hi) as Hlt.
  rewrite length_cumulative_gc_skew in Hlt.
  assert (∀ j : nat,
            Z.of_nat j < Py.len sequence / window_size →
            cumulative_gc_skew skew !! j
            = Some (prefix_skew sequence window_size j)) as Hprofile
    by (intros j Hj; by apply cumulative_gc_skew_prefix_count).
  assert (least = prefix_skew sequence window_size i) as Hvalue.
  { rewrite Hprofile in Hi by lia. by injection Hi. }
  exists i, least, (Z.of_nat i * window_size),
    (Z.of_nat i * window_size + window_size).
  do 3 (split; [done|]).
  split; [by rewrite length_cumulative_gc_skew|].
  split; [done|]. split; [lia|]. split; [done|].
  split; [intros j Hj; by apply (Hleast j), Hprofile|].
  split; [intros j Hj; apply (Hfirst j); [done|]; apply Hprofile; lia|].
  do 3 (split; [done|]).
  split; [lia|]. split; [lia|]. split; [lia|]. split; [lia|].
  split; [by exists (Z.of_nat i)|].
  intros Hlen.
  by apply (cumulative_gc_skew_float_of_profile sequence window_size).
Qed.

Lemma find_ori_position_first_minimum_witness :
  0 < 2
  ∧ compute_gc_skew "GGACCTCA" 2 = Ok [2; -1; -1; -1]
  ∧ cumulative_gc_skew [2; -1; -1; -1] ≠ []
  ∧ ∃ (i : nat) (least start end_ : Z),
      find_ori_position "GGACCTCA" 2 = Ok (start, end_)
      ∧ start = Z.of_nat i * 2
      ∧ least = prefix_skew "GGACCTCA" 2 i
      ∧ ∀ j : nat,
          Z.of_nat j < Py.len "GGACCTCA" / 2 →
          least ≤ prefix_skew "GGACCTCA" 2 j.
Proof.
  assert (0 < 2) as Hw by lia.
  assert (compute_gc_skew "GGACCTCA" 2 = Ok [2; -1; -1; -1]) as Hrun
    by reflexivity.
  assert (cumulative_gc_skew [2; -1; -1; -1] ≠ []) as Hne
    by (vm_compute; discriminate).
  split; [exact Hw|]. split; [exact Hrun|]. split; [exact Hne|].
  destruct (find_ori_position_first_minimum "GGACCTCA" 2 [2; -1; -1; -1]
              Hw Hrun Hne)
    as (i & least & start & end_ & Hpos & Hstart & _ & _ & _ & _ & Hvalue
        & Hleast & _).
  exists i, least, start, end_.
  split; [exact Hpos|]. split; [exact Hstart|].
  split; [exact Hvalue | exact Hleast].
Defined.

Section profile_append_facts.

Lemma compute_gc_skew_app (s1 s2 : string) (w : Z) (skew1 skew2 : list Z) :
  0 < w → (w | Py.len s1) →
  compute_gc_skew s1 w = Ok skew1 →
  compute_gc_skew s2 w = Ok skew2 →
  compute_gc_skew (s1 +:+ s2) w = Ok (skew1 ++ skew2).
Proof.
  intros Hw [m Hm] Hrun1 Hrun2.
  rewrite compute_gc_skew_substrings in * by done.
  injection Hrun1 as <-. injection Hrun2 as <-. f_equal.
  pose proof (len_nonneg s1) as Hlen1. pose proof (len_nonneg s2) as Hlen2.
  assert (0 ≤ m) by nia.
  assert (0 ≤ Py.len s2 / w) by (apply Z.div_pos; lia).
  rewrite len_append, Hm, Z.div_add_l, Z.div_mul by lia.
  rewrite Z2Nat.inj_add, seq_app, fmap_app by lia. f_equal.
  - apply Forall_fmap_ext_1, Forall_forall. intros i [_ Hi]%elem_of_seq.
    rewrite substring_append_l; [done|]. unfold Py.len in Hm. nia.
  - cbn [Nat.add]. rewrite <- (Nat.add_0_r (Z.to_nat m)) at 1.
    rewrite <- fmap_add_seq, <- list_fmap_compose.
    apply Forall_fmap_ext_1, Forall_forall. intros i _. cbn [compose].
    replace ((Z.to_nat m + i) * Z.to_nat w)%nat
      with (String.length s1 + i * Z.to_nat w)%nat
      by (unfold Py.len in Hm; nia).
    by rewrite substring_append_r.
Qed.

(** A string shorter than a window has the empty profile. *)
Lemma compute_gc_skew_short (s : string) (w : Z) :
  0 < w → Py.len s < w → compute_gc_skew s w = Ok [].
Proof.
  intros Hw Hshort. pose proof (len_nonneg s).
  rewrite compute_gc_skew_fmap by done. by rewrite Z.div_small by lia.
Qed.

(** Symbols after the last whole window do not reach the profile. *)
Lemma compute_gc_skew_tail (s tail : string) (w : Z) :
  0 < w → (w | Py.len s) → Py.len tail < w →
  compute_gc_skew (s +:+ tail) w = compute_gc_skew s w.
Proof.
  intros Hw Hdiv Hshort.
  destruct (compute_gc_skew_ok s w Hw) as [skew Hrun].
  rewrite (compute_gc_skew_app s tail w skew []); try done.
  - by rewrite app_nil_r.
  - by apply compute_gc_skew_short.
Qed.

End profile_append_facts.

(** X1: with a positive [window_size], every value of the skew profile lies
    between [- window_size] and [window_size]. *)
Theorem compute_gc_skew_values_bounded
    (sequence : string) (window_size : Z) (skew_values : list Z) :
  0 < window_size →
  compute_gc_skew sequence window_size = Ok skew_values →
  ∀ (i : nat) (v : Z),
    skew_values !! i = Some v → - window_size ≤ v ∧ v ≤ window_size.
Proof.
  intros Hw Hrun i v Hv.
  rewrite compute_gc_skew_substrings in Hrun by done.
  injection Hrun as <-.
  apply list_lookup_fmap_Some in Hv as (j & -> & _).
  pose proof (gc_skew_of_window_bounds
                (String.substring (j * Z.to_nat window_size)
                   (Z.to_nat window_size) sequence)) as Hb.
  unfold Py.len in Hb. rewrite length_substring in Hb. lia.
Qed.

Lemma compute_gc_skew_values_bounded_witness :
  0 < 3
  ∧ compute_gc_skew "GGCATGCCCGG" 3 = Ok [1; 1; -3]
  ∧ ∀ (i : nat) (v : Z), [1; 1; -3] !! i = Some v → - 3 ≤ v ∧ v ≤ 3.
Proof.
  assert (0 < 3) as Hw by lia.
  assert (compute_gc_skew "GGCATGCCCGG" 3 = Ok [1; 1; -3]) as Hrun
    by reflexivity.
  split; [exact Hw|]. split; [exact Hrun|].
  exact (compute_gc_skew_values_bounded "GGCATGCCCGG" 3 [1; 1; -3] Hw Hrun).
Defined.

(** X2: when the length of [s1] is a multiple of the positive
    [window_size], the profile of [s1 + s2] is the profile of [s1] followed
    by the profile of [s2]; so symbols added after the last whole window,
    fewer than [window_size] of them, leave the profile as it is. *)
Theorem compute_gc_skew_append
    (s1 s2 : string) (window_size : Z) (skew1 skew2 : list Z) :
  0 < window_size →
  (window_size | Py.len s1) →
  compute_gc_skew s1 window_size = Ok skew1 →
  compute_gc_skew s2 window_size = Ok skew2 →
  compute_gc_skew (s1 +:+ s2) window_size = Ok (skew1 ++ skew2)
  ∧ (Py.len s2 < window_size →
       compute_gc_skew (s1 +:+ s2) window_size
       = compute_gc_skew s1 window_size).
Proof.
  intros Hw Hdiv Hrun1 Hrun2. split.
  - by apply compute_gc_skew_app.
  - intros Hshort. by apply compute_gc_skew_tail.
Qed.

Lemma compute_gc_skew_append_witness :
  0 < 3 ∧ (3 | Py.len "GGCATG")
  ∧ compute_gc_skew "GGCATG" 3 = Ok [1; 1]
  ∧ compute_gc_skew "CCCGG" 3 = Ok [-3]
  ∧ compute_gc_skew ("GGCATG" +:+ "CCCGG") 3 = Ok ([1; 1] ++ [-3]).
Proof.
  assert (0 < 3) as Hw by lia.
  assert (3 | Py.len "GGCATG") as Hdiv by (exists 2; reflexivity).
  assert (compute_gc_skew "GGCATG" 3 = Ok [1; 1]) as Hrun1 by reflexivity.
  assert (compute_gc_skew "CCCGG" 3 = Ok [-3]) as Hrun2 by reflexivity.
  split; [exact Hw|]. split; [exact Hdiv|]. split; [exact Hrun1|].
  split; [exact Hrun2|].
  exact (proj1 (compute_gc_skew_append "GGCATG" "CCCGG" 3 [1; 1] [-3]
                  Hw Hdiv Hrun1 Hrun2)).
Defined.

(** X3: with a positive [window_size], element [i] of the cumulative
    profile is the number of ['G'] minus the number of ['C'] in the first [i
    + 1] windows, that is in [sequence[0 : (i + 1) * window_size]]. *)
Theorem cumulative_gc_skew_is_prefix_skew
    (sequence : string) (window_size : Z) (skew_values : list Z) :
  0 < window_size →
  compute_gc_skew sequence window_size = Ok skew_values →
  ∀ i : nat,
    Z.of_nat i < Py.len sequence / window_size →
    let prefix :=
      Py.slice sequence 0 ((Z.of_nat i + 1) * window_size) in
    cumulative_gc_skew skew_values !! i
    = Some (Py.count "G"%char prefix - Py.count "C"%char prefix).
Proof.
  intros Hw Hrun i Hi prefix.
  pose proof (compute_gc_skew_length _ _ _ Hw Hrun) as Hlen.
  rewrite lookup_cumulative_gc_skew by lia. f_equal.
  rewrite compute_gc_skew_substrings in Hrun by done. injection Hrun as <-.
  rewrite <- fmap_take, take_seq, Nat.min_l by lia.
  rewrite prefix_skew_sum, gc_skew_of_window_diff.
  destruct (window_in_range sequence window_size (Z.of_nat i) Hw) as [? ?];
    [lia|].
  subst prefix. rewrite slice_substring by lia.
  by replace (Z.to_nat ((Z.of_nat i + 1) * window_size - 0))
    with (S i * Z.to_nat window_size)%nat by lia.
Qed.

Lemma cumulative_gc_skew_is_prefix_skew_witness :
  0 < 3
  ∧ compute_gc_skew "GGCATGCCCGG" 3 = Ok [1; 1; -3]
  ∧ cumulative_gc_skew [1; 1; -3] !! 1%nat
    = Some (Py.count "G"%char "GGCATG" - Py.count "C"%char "GGCATG").
Proof.
  assert (0 < 3) as Hw by lia.
  assert (compute_gc_skew "GGCATGCCCGG" 3 = Ok [1; 1; -3]) as Hrun
    by reflexivity.
  split; [exact Hw|]. split; [exact Hrun|].
  exact (cumulative_gc_skew_is_prefix_skew "GGCATGCCCGG" 3 [1; 1; -3]
           Hw Hrun 1%nat ltac:(reflexivity)).
Defined.

Section running_sum_facts.

Lemma running_totals_app (l1 l2 : list Z) : ∀ total,
  running_totals total (l1 ++ l2)
  = running_totals total l1 ++ running_totals (total + Py.sum l1) l2.
Proof.
  induction l1 as [|x l1 IH]; intros total; simpl.
  - by rewrite Z.add_0_r.
  - rewrite IH. do 3 f_equal. unfold Py.sum. simpl. lia.
Qed.

Lemma running_totals_shift (l : list Z) : ∀ total,
  running_totals total l = (λ c, total + c) <$> running_totals 0 l.
Proof.
  induction l as [|x l IH]; intros total; simpl; [done|].
  rewrite (IH (total + x)), (IH (0 + x)), <- list_fmap_compose.
  rewrite Z.add_0_l. f_equal.
  apply list_fmap_ext. intros _ c _. simpl. lia.
Qed.

Lemma running_totals_inj (l1 : list Z) : ∀ l2 total,
  running_totals total l1 = running_totals total l2 → l1 = l2.
Proof.
  induction l1 as [|x l1 IH]; intros [|y l2] total Heq; simpl in Heq;
    try done.
  injection Heq as Hhead Htail. assert (x = y) as -> by lia.
  f_equal. by eapply IH.
Qed.

Lemma cumulative_gc_skew_first (l : list Z) :
  cumulative_gc_skew l !! 0%nat = l !! 0%nat.
Proof.
  destruct l as [|x l]; [done|].
  rewrite lookup_cumulative_gc_skew by (simpl; lia).
  simpl. f_equal. unfold Py.sum. simpl. lia.
Qed.

Lemma cumulative_gc_skew_step (l : list Z) (i : nat) (v before after : Z) :
  l !! S i = Some v →
  cumulative_gc_skew l !! i = Some before →
  cumulative_gc_skew l !! S i = Some after →
  v = after - before.
Proof.
  intros Hv Hbefore Hafter.
  pose proof (lookup_lt_Some _ _ _ Hv) as Hi.
  rewrite lookup_cumulative_gc_skew in Hbefore, Hafter by lia.
  injection Hbefore as <-. injection Hafter as <-.
  rewrite (take_S_r _ _ _ Hv), sum_app. unfold Py.sum at 2. simpl. lia.
Qed.

Lemma cumulative_gc_skew_inj (l1 l2 : list Z) :
  cumulative_gc_skew l1 = cumulative_gc_skew l2 → l1 = l2.
Proof.
  rewrite !cumulative_gc_skew_running. by apply running_totals_inj.
Qed.

Lemma cumulative_gc_skew_app (l1 l2 : list Z) :
  cumulative_gc_skew (l1 ++ l2)
  = cumulative_gc_skew l1
    ++ ((λ c, Py.sum l1 + c) <$> cumulative_gc_skew l2).
Proof.
  rewrite !cumulative_gc_skew_running, running_totals_app. f_equal.
  by rewrite Z.add_0_l, running_totals_shift.
Qed.

Lemma finite_fmap_inj (l1 l2 : list Z) :
  PyFloat.Finite <$> l1 = PyFloat.Finite <$> l2 → l1 = l2.
Proof.
  revert l2. induction l1 as [|x l1 IH]; intros [|y l2] Heq; try done.
  injection Heq as -> Htail. f_equal. by apply IH.
Qed.

Lemma exactly_summable_app (l1 l2 : list Z) :
  exactly_summable (l1 ++ l2) →
  exactly_summable l1
  ∧ Forall within_double
      ((λ c, Py.sum l1 + c) <$> cumulative_gc_skew l2).
Proof.
  intros [Hvalues Hsums]. apply Forall_app in Hvalues as [Hvalues1 _].
  rewrite <- cumulative_gc_skew_running, cumulative_gc_skew_app in Hsums.
  apply Forall_app in Hsums as [Hsums1 Hsums2].
  rewrite cumulative_gc_skew_running in Hsums1. by repeat split.
Qed.

End running_sum_facts.

(** X4: on a profile of integers whose values and running sums all lie in
    [- 2 ^ 53 .. 2 ^ 53], where the float accumulator is exact, the
    cumulative profile loses nothing: its first element is the first skew
    value, each later skew value is the difference of two neighbouring
    cumulative values, and another such profile with the same cumulative
    profile is the same profile. *)
Theorem cumulative_gc_skew_differences (skew_values : list Z) :
  exactly_summable skew_values →
  ∃ cumulative : list PyFloat.float,
    cumulative_gc_skew_float skew_values = Ok cumulative
    ∧ cumulative !! 0%nat = PyFloat.Finite <$> skew_values !! 0%nat
    ∧ (∀ (i : nat) (v before after : Z),
         skew_values !! S i = Some v →
         cumulative !! i = Some (PyFloat.Finite before) →
         cumulative !! S i = Some (PyFloat.Finite after) →
         v = after - before)
    ∧ (∀ other : list Z,
         exactly_summable other →
         cumulative_gc_skew_float other = Ok cumulative →
         other = skew_values).
Proof.
  intros Hexact. eexists.
  split; [by apply cumulative_gc_skew_float_exact|]. split; [|split].
  - by rewrite list_lookup_fmap, cumulative_gc_skew_first.
  - intros i v before after Hv Hbefore Hafter.
    apply list_lookup_fmap_Some in Hbefore as (before' & [= ->] & Hbefore).
    apply list_lookup_fmap_Some in Hafter as (after' & [= ->] & Hafter).
    by eapply cumulative_gc_skew_step.
  - intros other Hother Hrun.
    rewrite cumulative_gc_skew_float_exact in Hrun by done.
    injection Hrun as Hrun.
    by apply cumulative_gc_skew_inj, finite_fmap_inj.
Qed.

Lemma cumulative_gc_skew_differences_witness :
  exactly_summable [1; -2; 3; -1]
  ∧ ∃ cumulative : list PyFloat.float,
      cumulative_gc_skew_float [1; -2; 3; -1] = Ok cumulative
      ∧ cumulative !! 0%nat = Some (PyFloat.Finite 1).
Proof.
  assert (exactly_summable [1; -2; 3; -1]) as Hexact
    by (split; repeat constructor; vm_compute; discriminate).
  split; [exact Hexact|].
  destruct (cumulative_gc_skew_differences [1; -2; 3; -1] Hexact)
    as (cumulative & Hrun & Hfirst & _).
  exists cumulative. split; [exact Hrun | exact Hfirst].
Defined.

(** X5: when the values and running sums of [l1 ++ l2] and of [l2] all lie
    in [- 2 ^ 53 .. 2 ^ 53], the cumulative profile of [l1 ++ l2] is the
    cumulative profile of [l1] followed by the one of [l2] with the sum of
    [l1] added, as a float, to each element. *)
Theorem cumulative_gc_skew_append (l1 l2 : list Z) :
  exactly_summable (l1 ++ l2) → exactly_summable l2 →
  ∃ c1 c2 : list PyFloat.float,
    cumulative_gc_skew_float l1 = Ok c1
    ∧ cumulative_gc_skew_float l2 = Ok c2
    ∧ cumulative_gc_skew_float (l1 ++ l2)
      = Ok (c1 ++ (PyFloat.add (PyFloat.Finite (Py.sum l1)) <$> c2)).
Proof.
  intros Hboth Hright.
  destruct (exactly_summable_app _ _ Hboth) as [Hleft Hshifted].
  eexists _, _.
  split; [by apply cumulative_gc_skew_float_exact|].
  split; [by apply cumulative_gc_skew_float_exact|].
  rewrite cumulative_gc_skew_float_exact by done. f_equal.
  rewrite cumulative_gc_skew_app, fmap_app. f_equal.
  rewrite <- !list_fmap_compose.
  apply list_eq. intros j. rewrite !list_lookup_fmap.
  destruct (cumulative_gc_skew l2 !! j) as [c|] eqn:Hc; [|done].
  cbn. f_equal. symmetry. apply add_exact.
  rewrite Forall_lookup in Hshifted. apply (Hshifted j).
  by rewrite list_lookup_fmap, Hc.
Qed.

Lemma cumulative_gc_skew_append_witness :
  exactly_summable ([1; -2] ++ [3; -1]) ∧ exactly_summable [3; -1]
  ∧ cumulative_gc_skew_float ([1; -2] ++ [3; -1])
    = Ok ([PyFloat.Finite 1; PyFloat.Finite (-1)]
          ++ [PyFloat.Finite 2; PyFloat.Finite 1]).
Proof.
  assert (exactly_summable ([1; -2] ++ [3; -1])) as Hboth
    by (split; repeat constructor; vm_compute; discriminate).
  assert (exactly_summable [3; -1]) as Hright
    by (split; repeat constructor; vm_compute; discriminate).
  split; [exact Hboth|]. split; [exact Hright|].
  destruct (cumulative_gc_skew_append [1; -2] [3; -1] Hboth Hright)
    as (c1 & c2 & Hleft & Hrun2 & Hrun).
  rewrite Hrun.
  assert (c1 = [PyFloat.Finite 1; PyFloat.Finite (-1)]) as ->
    by (vm_compute in Hleft; by injection Hleft).
  assert (c2 = [PyFloat.Finite 3; PyFloat.Finite 2]) as ->
    by (vm_compute in Hrun2; by injection Hrun2).
  reflexivity.
Defined.

(** * Further properties of the located window *)

Section located_window_facts.

Lemma cumulative_nonempty sequence w skew :
  0 < w → w ≤ Py.len sequence →
  compute_gc_skew sequence w = Ok skew →
  cumulative_gc_skew skew ≠ [].
Proof.
  intros Hw Hfits Hrun Hnil.
  apply (cumulative_empty_iff sequence w skew Hw Hrun) in Hnil. lia.
Qed.

Lemma find_ori_position_tail (s tail : string) (w : Z) :
  0 < w → (w | Py.len s) → Py.len tail < w →
  find_ori_position (s +:+ tail) w = find_ori_position s w.
Proof.
  intros Hw Hdiv Hshort. unfold find_ori_position.
  by rewrite compute_gc_skew_tail.
Qed.

End located_window_facts.

(** X6: when every window after the first has at least as many ['G'] as
    ['C'] (no skew value after the first is negative), the cumulative
    profile never falls below its first value and [find_ori_position]
    returns the first window, [(0, window_size)]. *)
Theorem find_ori_position_rising_profile
    (sequence : string) (window_size : Z) (skew_values : list Z) :
  0 < window_size → window_size ≤ Py.len sequence →
  compute_gc_skew sequence window_size = Ok skew_values →
  (∀ (j : nat) (v : Z), (1 ≤ j)%nat → skew_values !! j = Some v → 0 ≤ v) →
  find_ori_position sequence window_size = Ok (0, window_size).
Proof.
  intros Hw Hfits Hrun Hrising.
  pose proof (cumulative_nonempty _ _ _ Hw Hfits Hrun) as Hne.
  destruct (find_ori_position_ok _ _ _ Hw Hrun Hne)
    as (i & least & Hpos & Hi & _ & Hfirst & _).
  destruct i as [|i]; [by rewrite Hpos|]. exfalso.
  pose proof (lookup_lt_Some _ _ _ Hi) as Hlt.
  rewrite length_cumulative_gc_skew in Hlt.
  rewrite lookup_cumulative_gc_skew in Hi by done. injection Hi as Hi.
  assert (least < Py.sum (take 1 skew_values)) as Hbelow.
  { apply (Hfirst 0%nat); [lia|]. by rewrite lookup_cumulative_gc_skew by lia. }
  rewrite (sum_take_split skew_values 0 (S i)) in Hi by lia.
  pose proof (sum_nonneg (drop 1 (take (S (S i)) skew_values))
                (Forall_later_elements _ _ 0 (S i) Hrising)).
  lia.
Qed.

Lemma find_ori_position_rising_profile_witness :
  0 < 2 ∧ 2 ≤ Py.len "ACGTGGAT"
  ∧ compute_gc_skew "ACGTGGAT" 2 = Ok [-1; 1; 2; 0]
  ∧ find_ori_position "ACGTGGAT" 2 = Ok (0, 2).
Proof.
  assert (0 < 2) as Hw by lia.
  assert (2 ≤ Py.len "ACGTGGAT") as Hfits by (vm_compute; discriminate).
  assert (compute_gc_skew "ACGTGGAT" 2 = Ok [-1; 1; 2; 0]) as Hrun
    by reflexivity.
  split; [exact Hw|]. split; [exact Hfits|]. split; [exact Hrun|].
  apply (find_ori_position_rising_profile "ACGTGGAT" 2 [-1; 1; 2; 0]
           Hw Hfits Hrun).
  intros [|[|[|[|j]]]] v Hj Hv; simpl in Hv; try lia; try discriminate Hv;
    injection Hv as <-; lia.
Defined.

(** X7: when every window after the first has more ['C'] than ['G'] (every
    skew value after the first is negative), the cumulative profile falls
    to its end and [find_ori_position] returns the last whole window. *)
Theorem find_ori_position_falling_profile
    (sequence : string) (window_size : Z) (skew_values : list Z) :
  0 < window_size → window_size ≤ Py.len sequence →
  compute_gc_skew sequence window_size = Ok skew_values →
  (∀ (j : nat) (v : Z), (1 ≤ j)%nat → skew_values !! j = Some v → v < 0) →
  find_ori_position sequence window_size
  = Ok ((Py.len sequence / window_size - 1) * window_size,
        (Py.len sequence / window_size - 1) * window_size + window_size).
Proof.
  intros Hw Hfits Hrun Hfalling.
  pose proof (cumulative_nonempty _ _ _ Hw Hfits Hrun) as Hne.
  pose proof (compute_gc_skew_length _ _ _ Hw Hrun) as Hlen.
  destruct (find_ori_position_ok _ _ _ Hw Hrun Hne)
    as (i & least & Hpos & Hi & Hleast & _).
  pose proof (lookup_lt_Some _ _ _ Hi) as Hlt.
  rewrite length_cumulative_gc_skew in Hlt.
  destruct (decide (S i = length skew_values)) as [Hlast|Hearlier].
  { rewrite Hpos. do 2 f_equal; lia. }
  exfalso. set (n := length skew_values) in *.
  rewrite lookup_cumulative_gc_skew in Hi by done. injection Hi as Hi.
  assert (least ≤ Py.sum (take (S (n - 1)) skew_values)) as Habove.
  { apply (Hleast (n - 1)%nat).
    by rewrite lookup_cumulative_gc_skew by (subst n; lia). }
  rewrite (sum_take_split skew_values i (n - 1)) in Habove by lia.
  assert (Py.sum (drop (S i) (take (S (n - 1)) skew_values)) < 0);
    [|lia].
  apply sum_negative; [|by apply Forall_later_elements].
  intros Hnil%(f_equal length).
  rewrite length_drop, length_take in Hnil. cbn [length] in Hnil.
  subst n. lia.
Qed.

Lemma find_ori_position_falling_profile_witness :
  0 < 2 ∧ 2 ≤ Py.len "GGACCTCA"
  ∧ compute_gc_skew "GGACCTCA" 2 = Ok [2; -1; -1; -1]
  ∧ find_ori_position "GGACCTCA" 2 = Ok (6, 8).
Proof.
  assert (0 < 2) as Hw by lia.
  assert (2 ≤ Py.len "GGACCTCA") as Hfits by (vm_compute; discriminate).
  assert (compute_gc_skew "GGACCTCA" 2 = Ok [2; -1; -1; -1]) as Hrun
    by reflexivity.
  split; [exact Hw|]. split; [exact Hfits|]. split; [exact Hrun|].
  apply (find_ori_position_falling_profile "GGACCTCA" 2 [2; -1; -1; -1]
           Hw Hfits Hrun).
  intros [|[|[|[|j]]]] v Hj Hv; simpl in Hv; try lia; try discriminate Hv;
    injection Hv as <-; lia.
Defined.

(** X8: symbols after the last whole window, fewer than [window_size] of
    them, do not move the located window: [find_ori_position] returns the
    same on [s + tail] as on [s] when the length of [s] is a multiple of
    [window_size]. *)
Theorem find_ori_position_ignores_tail
    (s tail : string) (window_size : Z) :
  0 < window_size → (window_size | Py.len s) → Py.len tail < window_size →
  find_ori_position (s +:+ tail) window_size
  = find_ori_position s window_size
  ∧ ∀ start end_ : Z,
      find_ori_position (s +:+ tail) window_size = Ok (start, end_) →
      end_ ≤ Py.len s.
Proof.
  intros Hw Hdiv Hshort. split; [by apply find_ori_position_tail|].
  intros start end_ Hpos. rewrite find_ori_position_tail in Hpos by done.
  by apply (find_ori_position_bounds s window_size start end_ Hw).
Qed.

Lemma find_ori_position_ignores_tail_witness :
  0 < 3 ∧ (3 | Py.len "GGCATGCCC") ∧ Py.len "GG" < 3
  ∧ find_ori_position ("GGCATGCCC" +:+ "GG") 3
    = find_ori_position "GGCATGCCC" 3.
Proof.
  assert (0 < 3) as Hw by lia.
  assert (3 | Py.len "GGCATGCCC") as Hdiv by (exists 3; reflexivity).
  assert (Py.len "GG" < 3) as Hshort by reflexivity.
  split; [exact Hw|]. split; [exact Hdiv|]. split; [exact Hshort|].
  exact (proj1 (find_ori_position_ignores_tail "GGCATGCCC" "GG" 3
                  Hw Hdiv Hshort)).
Defined.

(** * Further properties of the extracted region *)

Section extracted_region_facts.

(** With a positive window that fits, [find_ori_position] returns. *)
Lemma find_ori_position_returns sequence w :
  0 < w → w ≤ Py.len sequence →
  ∃ ori_start ori_end : Z,
    find_ori_position sequence w = Ok (ori_start, ori_end).
Proof.
  intros Hw Hfits. destruct (compute_gc_skew_ok sequence w Hw) as [skew Hrun].
  pose proof (cumulative_nonempty _ _ _ Hw Hfits Hrun) as Hne.
  destruct (find_ori_position_ok _ _ _ Hw Hrun Hne) as (i & _ & Hpos & _).
  by eexists _, _.
Qed.

End extracted_region_facts.

(** X9: a flank at least as long as the sequence makes the region the whole
    sequence: [extract_ori_region] returns [(sequence, 0,
    len(sequence))] whenever [0 < window_size ≤ len(sequence) ≤ flank]. *)
Theorem extract_ori_region_whole_sequence
    (sequence : string) (window_size flank : Z) :
  0 < window_size → window_size ≤ Py.len sequence →
  Py.len sequence ≤ flank →
  extract_ori_region sequence window_size flank
  = Ok (sequence, 0, Py.len sequence).
Proof.
  intros Hw Hfits Hflank.
  destruct (find_ori_position_returns sequence window_size Hw Hfits)
    as (ori_start & ori_end & Hpos).
  destruct (ori_center_bounds _ _ _ _ Hw Hpos) as [Hlo Hhi].
  rewrite (extract_ori_region_unfold _ _ _ _ _ Hpos).
  rewrite Z.max_l, Z.min_l by lia. by rewrite slice_all.
Qed.

Lemma extract_ori_region_whole_sequence_witness :
  0 < 3 ∧ 3 ≤ Py.len "GGCATGCCCGG" ∧ Py.len "GGCATGCCCGG" ≤ 5000
  ∧ extract_ori_region "GGCATGCCCGG" 3 5000
    = Ok ("GGCATGCCCGG", 0, Py.len "GGCATGCCCGG").
Proof.
  assert (0 < 3) as Hw by lia.
  assert (3 ≤ Py.len "GGCATGCCCGG") as Hfits by (vm_compute; discriminate).
  assert (Py.len "GGCATGCCCGG" ≤ 5000) as Hflank
    by (vm_compute; discriminate).
  split; [exact Hw|]. split; [exact Hfits|]. split; [exact Hflank|].
  exact (extract_ori_region_whole_sequence "GGCATGCCCGG" 3 5000
           Hw Hfits Hflank).
Defined.

(** X10: with a positive [window_size] and a positive [flank] the region
    holds the centre of the located window, [start ≤ ori_start +
    window_size // 2 < end]; with a flank of at least [window_size -
    window_size // 2] it holds the whole located window, [start ≤
    ori_start] and [ori_end ≤ end]. *)
Theorem extract_ori_region_covers_window
    (sequence : string) (window_size flank ori_start ori_end : Z)
    (region : string) (start end_ : Z) :
  0 < window_size → 0 < flank →
  find_ori_position sequence window_size = Ok (ori_start, ori_end) →
  extract_ori_region sequence window_size flank = Ok (region, start, end_) →
  (start ≤ ori_start + window_size / 2 ∧ ori_start + window_size / 2 < end_)
  ∧ (window_size - window_size / 2 ≤ flank →
       start ≤ ori_start ∧ ori_end ≤ end_).
Proof.
  intros Hw Hflank Hpos Hrun.
  rewrite (extract_ori_region_unfold _ _ _ _ _ Hpos) in Hrun.
  injection Hrun as _ <- <-.
  destruct (ori_center_bounds _ _ _ _ Hw Hpos) as [Hlo Hhi].
  destruct (find_ori_position_bounds _ _ _ _ Hw Hpos) as (? & -> & ?).
  assert (0 ≤ window_size / 2) by (apply Z.div_pos; lia).
  pose proof (Z.mul_div_le window_size 2 ltac:(lia)).
  split; lia.
Qed.

Lemma extract_ori_region_covers_window_witness :
  0 < 3 ∧ 0 < 2
  ∧ find_ori_position "GGCATGCCCGG" 3 = Ok (6, 9)
  ∧ extract_ori_region "GGCATGCCCGG" 3 2 = Ok ("GCCC", 5, 9)
  ∧ (5 ≤ 6 + 3 / 2 ∧ 6 + 3 / 2 < 9)
  ∧ (3 - 3 / 2 ≤ 2 → 5 ≤ 6 ∧ 9 ≤ 9).
Proof.
  assert (0 < 3) as Hw by lia. assert (0 < 2) as Hflank by lia.
  assert (find_ori_position "GGCATGCCCGG" 3 = Ok (6, 9)) as Hpos
    by reflexivity.
  assert (extract_ori_region "GGCATGCCCGG" 3 2 = Ok ("GCCC", 5, 9)) as Hrun
    by reflexivity.
  split; [exact Hw|]. split; [exact Hflank|]. split; [exact Hpos|].
  split; [exact Hrun|].
  exact (extract_ori_region_covers_window "GGCATGCCCGG" 3 2 6 9 "GCCC" 5 9
           Hw Hflank Hpos Hrun).
Defined.

(** * Further properties of the clump map *)

Section clump_map_facts.

(** No k-mer is counted more often than the inner loop runs. *)
Lemma count_kmers_le_positions (w : string) (k : Z) (x : string) (c : Z) :
  count_kmers w k !! x = Some c →
  1 ≤ c ∧ c ≤ Py.len w - k + 1.
Proof.
  unfold count_kmers.
  rewrite (count_loop_lookup (λ j, Py.slice w j (j + k))), lookup_empty.
  cbn zeta. case_decide as Hc; [done|]. intros [= <-].
  pose proof (length_filter (λ j, Py.slice w j (j + k) = x)
                (Py.range 0 (Py.len w - k + 1))) as Hle.
  unfold Py.range in Hle at 2. rewrite length_seqZ in Hle. lia.
Qed.

(** A key the loop has produced counts at least once. *)
Lemma count_kmers_first (w : string) (k : Z) :
  0 < Py.len w - k + 1 →
  ∃ c, count_kmers w k !! Py.slice w 0 (0 + k) = Some c ∧ 1 ≤ c.
Proof.
  intros Hpos. unfold count_kmers.
  rewrite (count_loop_lookup (λ j, Py.slice w j (j + k))), lookup_empty.
  cbn zeta.
  assert (0 ∈ filter (λ j, Py.slice w j (j + k) = Py.slice w 0 (0 + k))
                (Py.range 0 (Py.len w - k + 1))) as Hin.
  { apply list_elem_of_filter. split; [done|].
    unfold Py.range. apply elem_of_seqZ. lia. }
  destruct (filter _ _) as [|j hits]; [by apply elem_of_nil in Hin|].
  case_decide as Hc; [simpl in Hc; lia|].
  eexists. split; [done|]. simpl. lia.
Qed.

(** The loop adds at most one key for each offset. *)
Lemma clump_loop_size (g : Z → gset string) (wl : Z) (offsets : list Z) :
  (size
     (fold_left
        (λ (clumps : gmap (Z * Z) (gset string)) i,
           if decide (g i = ∅) then clumps
           else <[(i, (i + wl)%Z) := g i]> clumps)
        offsets ∅)
   ≤ length offsets)%nat.
Proof.
  induction offsets as [|i offsets IH] using rev_ind.
  - simpl. by rewrite map_size_empty.
  - rewrite fold_left_app, length_app. simpl.
    destruct (decide (g i = ∅)); [lia|].
    rewrite map_size_insert. destruct (_ !! _); simpl; lia.
Qed.

(** The clumps of a slice are the clumps of the whole, with the keys moved
    by the start of the slice. *)
Lemma find_clumps_slice_lookup sequence (lo hi k wl mo s e : Z)
    (S : gset string) :
  0 ≤ lo → lo ≤ hi → hi ≤ Py.len sequence → 0 ≤ wl →
  find_clumps (Py.slice sequence lo hi) k wl mo !! (s, e) = Some S
  ↔ 0 ≤ s ∧ e ≤ hi - lo
    ∧ find_clumps sequence k wl mo !! (lo + s, lo + e) = Some S.
Proof.
  intros Hlo Hhi Hlen Hwl. rewrite !find_clumps_lookup.
  rewrite len_slice by done. split.
  - intros (? & ? & -> & HS & ?).
    rewrite (slice_slice sequence lo hi s wl) in HS by lia.
    replace (lo + (s + wl)) with (lo + s + wl) by lia.
    repeat split; try lia; done.
  - intros (? & ? & ? & ? & ? & HS & ?).
    assert (e = s + wl) as -> by lia.
    rewrite <- (slice_slice sequence lo hi s wl) in HS by lia.
    repeat split; try lia; done.
Qed.

End clump_map_facts.

(** X11: raising [min_occurrence] only removes: every key of the map for
    the higher threshold is a key of the map for the lower one, and its set
    is contained in the set found there. *)
Theorem find_clumps_threshold_monotone
    (sequence : string) (k window_length low high : Z)
    (s e : Z) (S_high : gset string) :
  low ≤ high →
  find_clumps sequence k window_length high !! (s, e) = Some S_high →
  ∃ S_low : gset string,
    find_clumps sequence k window_length low !! (s, e) = Some S_low
    ∧ S_high ⊆ S_low.
Proof.
  intros Hle (? & ? & -> & -> & Hne)%find_clumps_lookup.
  set (counts := count_kmers
                   (Py.slice sequence s (s + window_length)) k) in *.
  assert (frequent_kmers counts high ⊆ frequent_kmers counts low) as Hsub.
  { intros x (c & Hc & Hhigh)%elem_of_frequent_kmers.
    apply elem_of_frequent_kmers. exists c. split; [done|lia]. }
  exists (frequent_kmers counts low). split; [|done].
  apply find_clumps_lookup. do 4 (split; [done|]).
  intros Hempty. rewrite Hempty in Hsub. apply Hne. set_solver.
Qed.

Lemma find_clumps_threshold_monotone_witness :
  1 ≤ 2
  ∧ find_clumps "ATGATGATG" 3 7 2 !! (0, 7) = Some {[ "ATG"; "TGA" ]}
  ∧ ∃ S_low : gset string,
      find_clumps "ATGATGATG" 3 7 1 !! (0, 7) = Some S_low
      ∧ {[ "ATG"; "TGA" ]} ⊆ S_low.
Proof.
  assert (1 ≤ 2) as Hle by lia.
  assert (find_clumps "ATGATGATG" 3 7 2 !! (0, 7)
          = Some {[ "ATG"; "TGA" ]})
    as Hhigh by (vm_compute; reflexivity).
  split; [exact Hle|]. split; [exact Hhigh|].
  exact (find_clumps_threshold_monotone "ATGATGATG" 3 7 1 2 0 7
           {[ "ATG"; "TGA" ]} Hle Hhigh).
Defined.

(** X12: a threshold above the number of k-mer positions of a window
    cannot be met: for [window_length ≥ 0] and [min_occurrence >
    window_length - k + 1] the map is empty. *)
Theorem find_clumps_threshold_out_of_reach
    (sequence : string) (k window_length min_occurrence : Z) :
  0 ≤ window_length →
  window_length - k + 1 < min_occurrence →
  find_clumps sequence k window_length min_occurrence = ∅.
Proof.
  intros Hwl Hmo. apply map_eq. intros [s e]. rewrite lookup_empty.
  apply eq_None_not_Some. intros [S HS].
  apply find_clumps_lookup in HS as (? & ? & _ & -> & Hne).
  apply set_choose_L in Hne as [x Hx].
  apply elem_of_frequent_kmers in Hx as (c & Hc & Hreach).
  apply count_kmers_le_positions in Hc as [_ Hc].
  rewrite len_slice in Hc by lia. lia.
Qed.

Lemma find_clumps_threshold_out_of_reach_witness :
  0 ≤ 7 ∧ 7 - 3 + 1 < 6 ∧ find_clumps "ATGATGATG" 3 7 6 = ∅.
Proof.
  assert (0 ≤ 7) as Hwl by lia. assert (7 - 3 + 1 < 6) as Hmo by lia.
  split; [exact Hwl|]. split; [exact Hmo|].
  exact (find_clumps_threshold_out_of_reach "ATGATGATG" 3 7 6 Hwl Hmo).
Defined.

(** X13: the map has at most one key for each window offset: its size is
    at most [len(sequence) - window_length + 1], and [0] when that is
    negative. *)
Theorem find_clumps_size_bound
    (sequence : string) (k window_length min_occurrence : Z) :
  Z.of_nat (size (find_clumps sequence k window_length min_occurrence))
  ≤ Z.max 0 (Py.len sequence - window_length + 1).
Proof.
  unfold find_clumps. cbn zeta.
  pose proof (clump_loop_size
                (λ i, frequent_kmers
                        (count_kmers
                           (Py.slice sequence i (i + window_length)) k)
                        min_occurrence)
                window_length
                (Py.range 0 (Py.len sequence - window_length + 1))) as Hle.
  unfold Py.range in Hle at 2. rewrite length_seqZ in Hle. lia.
Qed.

(** X14: with [min_occurrence ≤ 1] and [0 ≤ k ≤ window_length] every window
    offset [0 ≤ i ≤ len(sequence) - window_length] is a key, and its set
    holds the first k-mer of the window, [sequence[i : i + k]]. *)
Theorem find_clumps_every_window
    (sequence : string) (k window_length min_occurrence i : Z) :
  0 ≤ k → k ≤ window_length → min_occurrence ≤ 1 →
  0 ≤ i → i ≤ Py.len sequence - window_length →
  ∃ S : gset string,
    find_clumps sequence k window_length min_occurrence
      !! (i, i + window_length) = Some S
    ∧ Py.slice sequence i (i + k) ∈ S.
Proof.
  intros Hk Hkw Hmo Hi Hfits.
  set (window := Py.slice sequence i (i + window_length)).
  assert (Py.len window = window_length) as Hlen
    by (subst window; rewrite len_slice; lia).
  destruct (count_kmers_first window k) as (c & Hc & Hone); [lia|].
  assert (Py.slice window 0 (0 + k) = Py.slice sequence i (i + k)) as Hfirst.
  { subst window. rewrite slice_slice by lia. f_equal; lia. }
  rewrite Hfirst in Hc.
  assert (Py.slice sequence i (i + k)
          ∈ frequent_kmers (count_kmers window k) min_occurrence) as Hin.
  { apply elem_of_frequent_kmers. exists c. split; [done|lia]. }
  eexists. split; [|exact Hin].
  apply find_clumps_lookup. do 4 (split; [done|]). set_solver.
Qed.

Lemma find_clumps_every_window_witness :
  0 ≤ 3 ∧ 3 ≤ 7 ∧ 1 ≤ 1 ∧ 0 ≤ 2 ∧ 2 ≤ Py.len "ATGATGATG" - 7
  ∧ ∃ S : gset string,
      find_clumps "ATGATGATG" 3 7 1 !! (2, 2 + 7) = Some S
      ∧ Py.slice "ATGATGATG" 2 (2 + 3) ∈ S.
Proof.
  assert (0 ≤ 3) as Hk by lia. assert (3 ≤ 7) as Hkw by lia.
  assert (1 ≤ 1) as Hmo by lia. assert (0 ≤ 2) as Hi by lia.
  assert (2 ≤ Py.len "ATGATGATG" - 7) as Hfits by (vm_compute; discriminate).
  split; [exact Hk|]. split; [exact Hkw|]. split; [exact Hmo|].
  split; [exact Hi|]. split; [exact Hfits|].
  exact (find_clumps_every_window "ATGATGATG" 3 7 1 2 Hk Hkw Hmo Hi Hfits).
Defined.

(** X15: scanning a slice finds what scanning the whole finds there: for
    [0 ≤ lo ≤ hi ≤ len(sequence)] and [window_length ≥ 0],
    [find_clumps(sequence[lo:hi], ...)] binds [(s, e)] to a set exactly when
    [0 ≤ s], [e ≤ hi - lo] and [find_clumps(sequence, ...)] binds [(lo + s,
    lo + e)] to that set; so every key [(a, b)] of the whole with [lo ≤ a]
    and [b ≤ hi] is the key [(a - lo, b - lo)] of the slice. *)
Theorem find_clumps_of_slice
    (sequence : string) (lo hi k window_length min_occurrence : Z) :
  0 ≤ lo → lo ≤ hi → hi ≤ Py.len sequence → 0 ≤ window_length →
  (∀ (s e : Z) (S : gset string),
     find_clumps (Py.slice sequence lo hi) k window_length min_occurrence
       !! (s, e) = Some S
     ↔ 0 ≤ s ∧ e ≤ hi - lo
       ∧ find_clumps sequence k window_length min_occurrence
           !! (lo + s, lo + e) = Some S)
  ∧ (∀ (a b : Z) (S : gset string),
       lo ≤ a → b ≤ hi →
       find_clumps sequence k window_length min_occurrence !! (a, b)
       = Some S →
       find_clumps (Py.slice sequence lo hi) k window_length min_occurrence
         !! (a - lo, b - lo) = Some S).
Proof.
  intros Hlo Hhi Hlen Hwl. split.
  - intros s e S. by apply find_clumps_slice_lookup.
  - intros a b S Ha Hb Hwhole.
    apply find_clumps_slice_lookup; try done.
    split; [lia|]. split; [lia|].
    by replace (lo + (a - lo)) with a by lia;
       replace (lo + (b - lo)) with b by lia.
Qed.

Lemma find_clumps_of_slice_witness :
  0 ≤ 3 ∧ 3 ≤ 12 ∧ 12 ≤ Py.len "CCCATGATGATG" ∧ 0 ≤ 7
  ∧ (find_clumps (Py.slice "CCCATGATGATG" 3 12) 3 7 2 !! (0, 7)
     = Some {[ "ATG"; "TGA" ]}
     ↔ 0 ≤ 0 ∧ 7 ≤ 12 - 3
       ∧ find_clumps "CCCATGATGATG" 3 7 2 !! (3 + 0, 3 + 7)
         = Some {[ "ATG"; "TGA" ]}).
Proof.
  assert (0 ≤ 3) as Hlo by lia. assert (3 ≤ 12) as Hhi by lia.
  assert (12 ≤ Py.len "CCCATGATGATG") as Hlen by (vm_compute; discriminate).
  assert (0 ≤ 7) as Hwl by lia.
  split; [exact Hlo|]. split; [exact Hhi|]. split; [exact Hlen|].
  split; [exact Hwl|].
  exact (proj1 (find_clumps_of_slice "CCCATGATGATG" 3 12 3 7 2
                  Hlo Hhi Hlen Hwl) 0 7 {[ "ATG"; "TGA" ]}).
Defined.

(** * Further properties of the pipeline *)

Section pipeline_outcome_facts.

Lemma find_ori_with_clumps_unfold sequence w flank k cw mo
    (ori_start ori_end : Z) :
  find_ori_position sequence w = Ok (ori_start, ori_end) →
  find_ori_with_clumps sequence w flank k cw mo
  = Ok {| ori_start := Z.max 0 (ori_start + w / 2 - flank);
          ori_end := Z.min (Py.len sequence) (ori_start + w / 2 + flank);
          ori_sequence :=
            Py.slice sequence
              (Z.max 0 (ori_start + w / 2 - flank))
              (Z.min (Py.len sequence) (ori_start + w / 2 + flank));
          clumps :=
            find_clumps
              (Py.slice sequence
                 (Z.max 0 (ori_start + w / 2 - flank))
                 (Z.min (Py.len sequence) (ori_start + w / 2 + flank)))
              k cw mo |}.
Proof.
  intros Hpos. unfold find_ori_with_clumps.
  by rewrite (extract_ori_region_unfold _ _ _ _ _ Hpos).
Qed.

Lemma find_ori_position_short sequence w :
  0 < w → Py.len sequence < w →
  find_ori_position sequence w = Raise ValueError.
Proof.
  intros Hw Hshort. unfold find_ori_position.
  by rewrite compute_gc_skew_short.
Qed.

End pipeline_outcome_facts.

(** X16: with a positive [skew_window] the pipeline fails exactly when the
    sequence is shorter than one skew window, with the [ValueError] of
    [find_ori_position]; [flank], [k], [clump_window] and [min_occurrence]
    never make it fail. *)
Theorem find_ori_with_clumps_outcome
    (sequence : string)
    (skew_window flank k clump_window min_occurrence : Z) :
  0 < skew_window →
  (Py.len sequence < skew_window →
     find_ori_with_clumps sequence skew_window flank k clump_window
       min_occurrence = Raise ValueError)
  ∧ (skew_window ≤ Py.len sequence →
       ∃ r : analysis_result,
         find_ori_with_clumps sequence skew_window flank k clump_window
           min_occurrence = Ok r).
Proof.
  intros Hw. split.
  - intros Hshort. unfold find_ori_with_clumps, extract_ori_region.
    by rewrite find_ori_position_short.
  - intros Hfits.
    destruct (find_ori_position_returns sequence skew_window Hw Hfits)
      as (ori_start & ori_end & Hpos).
    eexists. by apply (find_ori_with_clumps_unfold _ _ _ _ _ _ _ _ Hpos).
Qed.

Lemma find_ori_with_clumps_outcome_witness :
  0 < 1000
  ∧ (Py.len "GATTACA" < 1000 →
       find_ori_with_clumps "GATTACA" 1000 5000 9 1000 3
       = Raise ValueError).
Proof.
  assert (0 < 1000) as Hw by lia. split; [exact Hw|].
  exact (proj1 (find_ori_with_clumps_outcome "GATTACA" 1000 5000 9 1000 3
                  Hw)).
Defined.

(** X17: the clump keys of the record, moved by [ori_start], are keys of
    the clump map of the whole sequence with the same sets: for a positive
    [skew_window] and [flank ≥ 0], [clump_window ≥ 0], a key [(s, e)] of
    [clumps] bound to [S] means that [find_clumps(sequence, ...)] binds
    [(ori_start + s, ori_start + e)] to [S], and [ori_start + e ≤
    ori_end]. *)
Theorem find_ori_with_clumps_absolute_keys
    (sequence : string)
    (skew_window flank k clump_window min_occurrence : Z)
    (r : analysis_result) :
  0 < skew_window → 0 ≤ flank → 0 ≤ clump_window →
  find_ori_with_clumps sequence skew_window flank k clump_window
    min_occurrence = Ok r →
  ∀ (s e : Z) (S : gset string),
    clumps r !! (s, e) = Some S →
    find_clumps sequence k clump_window min_occurrence
      !! (ori_start r + s, ori_start r + e) = Some S
    ∧ ori_start r ≤ ori_start r + s
    ∧ ori_start r + e ≤ ori_end r.
Proof.
  intros Hw Hflank Hcw Hrun s e S.
  apply find_ori_with_clumps_inv in Hrun
    as (region & start & end_ & Hregion & ->).
  apply extract_ori_region_inv in Hregion
    as (ori_start' & ori_end' & Hpos & Hstart & Hend & ->).
  destruct (ori_center_bounds _ _ _ _ Hw Hpos) as [Hlo Hhi].
  cbn [clumps ori_start ori_end]. intros Hkey.
  apply find_clumps_slice_lookup in Hkey as (? & ? & ?); [|lia..].
  split; [done|]. lia.
Qed.

Lemma find_ori_with_clumps_absolute_keys_witness :
  0 < 3 ∧ 0 ≤ 5 ∧ 0 ≤ 3
  ∧ find_ori_with_clumps "GGCATGCCCGG" 3 5 1 3 2
    = Ok {| ori_start := 2; ori_end := 11; ori_sequence := "CATGCCCGG";
            clumps := find_clumps "CATGCCCGG" 1 3 2 |}
  ∧ find_clumps "CATGCCCGG" 1 3 2 !! (4, 7) = Some {[ "C" ]}
  ∧ find_clumps "GGCATGCCCGG" 1 3 2 !! (2 + 4, 2 + 7) = Some {[ "C" ]}
  ∧ 2 + 7 ≤ 11.
Proof.
  assert (0 < 3) as Hw by lia. assert (0 ≤ 5) as Hflank by lia.
  assert (0 ≤ 3) as Hcw by lia.
  assert (find_ori_with_clumps "GGCATGCCCGG" 3 5 1 3 2
          = Ok {| ori_start := 2; ori_end := 11;
                  ori_sequence := "CATGCCCGG";
                  clumps := find_clumps "CATGCCCGG" 1 3 2 |}) as Hrun
    by reflexivity.
  assert (find_clumps "CATGCCCGG" 1 3 2 !! (4, 7) = Some {[ "C" ]}) as Hkey
    by (vm_compute; reflexivity).
  split; [exact Hw|]. split; [exact Hflank|]. split; [exact Hcw|].
  split; [exact Hrun|]. split; [exact Hkey|].
  destruct (find_ori_with_clumps_absolute_keys "GGCATGCCCGG" 3 5 1 3 2 _
              Hw Hflank Hcw Hrun 4 7 {[ "C" ]} Hkey) as (Habs & _ & Hend).
  split; [exact Habs | exact Hend].
Defined.

(** X18: a flank at least as long as the sequence makes the pipeline scan
    the whole sequence: for [0 < skew_window ≤ len(sequence) ≤ flank] the
    record is [ori_start = 0], [ori_end = len(sequence)], [ori_sequence =
    sequence] and [clumps = find_clumps(sequence, k, clump_window,
    min_occurrence)]. *)
Theorem find_ori_with_clumps_whole_sequence
    (sequence : string)
    (skew_window flank k clump_window min_occurrence : Z) :
  0 < skew_window → skew_window ≤ Py.len sequence →
  Py.len sequence ≤ flank →
  find_ori_with_clumps sequence skew_window flank k clump_window
    min_occurrence
  = Ok {| ori_start := 0; ori_end := Py.len sequence;
          ori_sequence := sequence;
          clumps := find_clumps sequence k clump_window min_occurrence |}.
Proof.
  intros Hw Hfits Hflank.
  destruct (find_ori_position_returns sequence skew_window Hw Hfits)
    as (ori_start' & ori_end' & Hpos).
  destruct (ori_center_bounds _ _ _ _ Hw Hpos) as [Hlo Hhi].
  rewrite (find_ori_with_clumps_unfold _ _ _ _ _ _ _ _ Hpos).
  rewrite Z.max_l, Z.min_l by lia. by rewrite slice_all.
Qed.

Lemma find_ori_with_clumps_whole_sequence_witness :
  0 < 3 ∧ 3 ≤ Py.len "GGCATGCCCGG" ∧ Py.len "GGCATGCCCGG" ≤ 5000
  ∧ find_ori_with_clumps "GGCATGCCCGG" 3 5000 9 1000 3
    = Ok {| ori_start := 0; ori_end := Py.len "GGCATGCCCGG";
            ori_sequence := "GGCATGCCCGG";
            clumps := find_clumps "GGCATGCCCGG" 9 1000 3 |}.
Proof.
  assert (0 < 3) as Hw by lia.
  assert (3 ≤ Py.len "GGCATGCCCGG") as Hfits by (vm_compute; discriminate).
  assert (Py.len "GGCATGCCCGG" ≤ 5000) as Hflank
    by (vm_compute; discriminate).
  split; [exact Hw|]. split; [exact Hfits|]. split; [exact Hflank|].
  exact (find_ori_with_clumps_whole_sequence "GGCATGCCCGG" 3 5000 9 1000 3
           Hw Hfits Hflank).
Defined.

(** * Reading a FASTA file *)

Section text_facts.

Lemma append_cons (c : ascii) (s t : string) :
  String c s +:+ t = String c (s +:+ t).
Proof. done. Qed.

Lemma append_empty_r (s : string) : s +:+ "" = s.
Proof. induction s as [|c s IH]; [done|]. by rewrite append_cons, IH. Qed.

Lemma append_assoc (s t u : string) : (s +:+ t) +:+ u = s +:+ (t +:+ u).
Proof. induction s as [|c s IH]; [done|]. by rewrite !append_cons, IH. Qed.

Lemma append_eq_empty (s t : string) : s +:+ t = "" → s = "" ∧ t = "".
Proof. destruct s; [done|]. by rewrite append_cons. Qed.

Lemma chars_append (s t : string) : chars (s +:+ t) = chars s ++ chars t.
Proof.
  unfold chars. induction s as [|c s IH]; [done|].
  rewrite append_cons. simpl. by rewrite IH.
Qed.

Lemma upper_append (s t : string) :
  PyText.upper (s +:+ t) = PyText.upper s +:+ PyText.upper t.
Proof.
  induction s as [|c s IH]; [done|].
  rewrite append_cons. simpl. by rewrite IH, append_cons.
Qed.

Lemma upper_eq_empty (s : string) : PyText.upper s = "" ↔ s = "".
Proof. by destruct s. Qed.

(** [upper] leaves no lower-case letter and makes no line break. *)
Lemma upper_char_fixed (c : ascii) :
  PyText.upper_char (PyText.upper_char c) = PyText.upper_char c.
Proof. by destruct c as [[] [] [] [] [] [] [] []]. Qed.

Lemma upper_char_line_break (c : ascii) :
  c ≠ PyText.LF ∧ c ≠ PyText.CR →
  PyText.upper_char c ≠ PyText.LF ∧ PyText.upper_char c ≠ PyText.CR.
Proof. destruct c as [[] [] [] [] [] [] [] []]; by intros [? ?]. Qed.

Lemma upper_fixed (s : string) :
  PyText.upper (PyText.upper s) = PyText.upper s.
Proof.
  induction s as [|c s IH]; [done|]. simpl. by rewrite upper_char_fixed, IH.
Qed.

Lemma chars_upper (s : string) :
  chars (PyText.upper s) = PyText.upper_char <$> chars s.
Proof.
  unfold chars. induction s as [|c s IH]; [done|]. simpl. by rewrite IH.
Qed.

Lemma join_cons (part : string) (parts : list string) :
  PyText.join "" (part :: parts) = part +:+ PyText.join "" parts.
Proof.
  unfold PyText.join. destruct parts as [|p parts]; simpl.
  - by rewrite append_empty_r.
  - done.
Qed.

Lemma join_app (parts1 parts2 : list string) :
  PyText.join "" (parts1 ++ parts2)
  = PyText.join "" parts1 +:+ PyText.join "" parts2.
Proof.
  induction parts1 as [|p parts1 IH]; [done|].
  rewrite <- app_comm_cons, !join_cons, IH. by rewrite append_assoc.
Qed.

(** Joined parts are empty only when every part is. *)
Lemma join_eq_empty (parts : list string) :
  Forall (λ part, part ≠ "") parts →
  PyText.join "" parts = "" ↔ parts = [].
Proof.
  intros Hparts. split; [|by intros ->].
  destruct Hparts as [|p parts Hp _]; [done|].
  rewrite join_cons. by intros [? _]%append_eq_empty.
Qed.

Lemma chars_join (parts : list string) :
  chars (PyText.join "" parts) = mjoin (chars <$> parts).
Proof.
  induction parts as [|p parts IH]; [done|].
  rewrite join_cons, chars_append, IH. done.
Qed.

End text_facts.

Section strip_facts.

(** White space appended at the end is stripped with the rest. *)
Lemma rstrip_append_spaces (s t : string) :
  PyText.rstrip t = "" → PyText.rstrip (s +:+ t) = PyText.rstrip s.
Proof.
  intros Ht. induction s as [|c s IH]; [done|].
  rewrite append_cons. simpl. by rewrite IH.
Qed.

Lemma lstrip_append (s t : string) :
  PyText.lstrip (s +:+ t)
  = if decide (PyText.lstrip s = "") then PyText.lstrip t
    else PyText.lstrip s +:+ t.
Proof.
  induction s as [|c s IH]; [done|].
  rewrite append_cons. simpl. destruct (PyText.isspace c); [done|].
  by rewrite append_cons.
Qed.

Lemma strip_append_spaces (s t : string) :
  PyText.lstrip t = "" → PyText.rstrip t = "" →
  PyText.strip (s +:+ t) = PyText.strip s.
Proof.
  intros Hl Hr. unfold PyText.strip. rewrite lstrip_append.
  destruct (decide (PyText.lstrip s = "")) as [->|_].
  - by rewrite Hl.
  - by apply rstrip_append_spaces.
Qed.

Lemma lstrip_chars (P : ascii → Prop) (s : string) :
  Forall P (chars s) → Forall P (chars (PyText.lstrip s)).
Proof.
  unfold chars. induction s as [|c s IH]; [done|]. simpl.
  intros [Hc Hs]%Forall_cons. destruct (PyText.isspace c); [by apply IH|].
  by constructor.
Qed.

Lemma rstrip_chars (P : ascii → Prop) (s : string) :
  Forall P (chars s) → Forall P (chars (PyText.rstrip s)).
Proof.
  unfold chars. induction s as [|c s IH]; [done|]. simpl.
  intros [Hc Hs]%Forall_cons. specialize (IH Hs).
  destruct (PyText.rstrip s) as [|c' kept].
  - destruct (PyText.isspace c); [done|]. by repeat constructor.
  - by constructor.
Qed.

(** What [strip] keeps are characters of the string. *)
Lemma strip_chars (P : ascii → Prop) (s : string) :
  Forall P (chars s) → Forall P (chars (PyText.strip s)).
Proof. intros Hs. by apply rstrip_chars, lstrip_chars. Qed.

End strip_facts.

Section line_facts.

Lemma universal_newlines_CR_LF (rest : string) :
  PyText.universal_newlines (String PyText.CR (String PyText.LF rest))
  = String PyText.LF (PyText.universal_newlines rest).
Proof. done. Qed.

Lemma universal_newlines_CR_other (c : ascii) (rest : string) :
  c ≠ PyText.LF →
  PyText.universal_newlines (String PyText.CR (String c rest))
  = String PyText.LF (PyText.universal_newlines (String c rest)).
Proof.
  intros Hc. cbn [PyText.universal_newlines].
  destruct (decide (PyText.CR = PyText.CR)); [|done].
  by destruct (decide (c = PyText.LF)).
Qed.

Lemma universal_newlines_CR_end :
  PyText.universal_newlines (String PyText.CR "") = String PyText.LF "".
Proof. done. Qed.

Lemma universal_newlines_other (c : ascii) (rest : string) :
  c ≠ PyText.CR →
  PyText.universal_newlines (String c rest)
  = String c (PyText.universal_newlines rest).
Proof.
  intros Hc. cbn [PyText.universal_newlines].
  by destruct (decide (c = PyText.CR)).
Qed.

(** The text read has no carriage return left. *)
Lemma universal_newlines_no_CR (s : string) :
  Forall (λ c, c ≠ PyText.CR) (chars (PyText.universal_newlines s)).
Proof.
  assert (∀ (n : nat) (t : string),
            (String.length t ≤ n)%nat →
            Forall (λ c, c ≠ PyText.CR)
              (chars (PyText.universal_newlines t)))
    as Hind; [|by apply (Hind (String.length s))].
  clear s. induction n as [|n IH]; intros [|c t] Hlen;
    cbn [String.length] in Hlen; try (by constructor); try lia.
  destruct (decide (c = PyText.CR)) as [->|Hc].
  - destruct t as [|c' t'].
    + rewrite universal_newlines_CR_end. by repeat constructor.
    + cbn [String.length] in Hlen.
      destruct (decide (c' = PyText.LF)) as [->|Hc'].
      * rewrite universal_newlines_CR_LF.
        constructor; [done|]. apply IH. lia.
      * rewrite universal_newlines_CR_other by done.
        constructor; [done|]. apply IH. cbn [String.length]. lia.
  - rewrite universal_newlines_other by done.
    constructor; [done|]. apply IH. lia.
Qed.

(** A text without carriage returns is read as it is. *)
Lemma universal_newlines_id (s : string) :
  Forall (λ c, c ≠ PyText.CR) (chars s) → PyText.universal_newlines s = s.
Proof.
  unfold chars. induction s as [|c s IH]; [done|]. simpl.
  intros [Hc Hs]%Forall_cons. destruct (decide (c = PyText.CR)); [done|].
  by rewrite IH.
Qed.

(** Reading up to the end of a line. *)
Lemma universal_newlines_line (l t rest : string) :
  Forall (λ c, c ≠ PyText.CR) (chars l) →
  PyText.universal_newlines (t +:+ rest)
  = line_feed +:+ PyText.universal_newlines rest →
  PyText.universal_newlines (l +:+ t +:+ rest)
  = l +:+ line_feed +:+ PyText.universal_newlines rest.
Proof.
  unfold chars. intros Hl Ht. induction l as [|c l IH]; [done|].
  simpl in Hl. apply Forall_cons in Hl as [Hc Hl].
  rewrite !append_cons. simpl.
  destruct (decide (c = PyText.CR)); [done|]. by rewrite IH.
Qed.

(** The first line of a text. *)
Lemma lines_first (l rest : string) :
  Forall (λ c, c ≠ PyText.LF) (chars l) →
  PyText.lines (l +:+ line_feed +:+ rest)
  = (l +:+ line_feed) :: PyText.lines rest.
Proof.
  unfold chars. intros Hl. induction l as [|c l IH].
  - change (PyText.lines (String PyText.LF rest)
            = line_feed :: PyText.lines rest).
    cbn [PyText.lines]. by destruct (decide (PyText.LF = PyText.LF)).
  - simpl in Hl. apply Forall_cons in Hl as [Hc Hl].
    rewrite !append_cons. simpl.
    destruct (decide (c = PyText.LF)); [done|]. by rewrite IH.
Qed.

Lemma lines_text_of_lines (ls : list string) :
  Forall no_line_break ls →
  PyText.lines (text_of_lines line_feed ls)
  = (λ l, l +:+ line_feed) <$> ls.
Proof.
  induction 1 as [|l ls Hl _ IH]; [done|]. simpl.
  rewrite lines_first, IH; [done|].
  eapply Forall_impl; [exact Hl|]. by intros c [? _].
Qed.

(** Every line of a text is a stretch of its characters without a line
    feed, followed or not by one line feed. *)
Lemma lines_bodies (P : ascii → Prop) (s : string) :
  Forall P (chars s) →
  Forall
    (λ line,
       ∃ body,
         (line = body ∨ line = body +:+ line_feed)
         ∧ Forall (λ c, c ≠ PyText.LF ∧ P c) (chars body))
    (PyText.lines s).
Proof.
  unfold chars. induction s as [|c s IH]; [by constructor|]. simpl.
  intros [Hc Hs]%Forall_cons. specialize (IH Hs).
  destruct (decide (c = PyText.LF)) as [->|Hne].
  - constructor; [|done]. exists "". split; [by right|constructor].
  - destruct (PyText.lines s) as [|line later].
    + repeat constructor. exists (String c ""). split; [by left|].
      by repeat constructor.
    + apply Forall_cons in IH as [(body & Hline & Hbody) Hlater].
      constructor; [|done]. exists (String c body). split.
      * destruct Hline as [->| ->]; [by left|by right].
      * by constructor.
Qed.

End line_facts.

Section read_fasta_facts.

(** The loop keeps, in order, the stripped lines that are neither empty nor
    headers. *)
Lemma sequence_parts_loop (ls : list string) : ∀ parts : list string,
  fold_left
    (λ parts line,
       let line := PyText.strip line in
       if decide (line = EmptyString) then parts
       else if PyText.startswith line ">" then parts
       else parts ++ [line])
    ls parts
  = parts ++ sequence_lines ls.
Proof.
  unfold sequence_lines.
  induction ls as [|l ls IH]; intros parts; simpl.
  - by rewrite app_nil_r.
  - rewrite IH, filter_cons.
    destruct (decide (PyText.strip l = "")) as [Hempty|Hne].
    + rewrite decide_False by (by intros [? _]). done.
    + destruct (PyText.startswith (PyText.strip l) ">") eqn:Hheader.
      * rewrite decide_False by (by intros [_ ?]). done.
      * rewrite decide_True by done. by rewrite <- app_assoc.
Qed.

Lemma sequence_parts_lines (text : string) :
  Fasta.sequence_parts text
  = sequence_lines (PyText.lines (PyText.universal_newlines text)).
Proof. unfold Fasta.sequence_parts. by rewrite sequence_parts_loop. Qed.

Lemma sequence_lines_nonempty (ls : list string) :
  Forall (λ part, part ≠ "") (sequence_lines ls).
Proof.
  unfold sequence_lines. apply Forall_forall.
  by intros part [[? _] _]%list_elem_of_filter.
Qed.

(** The sequence is empty exactly when no line carries sequence. *)
Lemma sequence_empty_iff (ls : list string) :
  PyText.upper (PyText.join "" (sequence_lines ls)) = ""
  ↔ sequence_lines ls = [].
Proof.
  rewrite upper_eq_empty. apply join_eq_empty, sequence_lines_nonempty.
Qed.

Lemma read_fasta_unfold (fs : gmap string string) (path text : string) :
  fs !! path = Some text →
  Fasta.read_fasta fs path
  = let sequence :=
      PyText.upper
        (PyText.join ""
           (sequence_lines
              (PyText.lines (PyText.universal_newlines text)))) in
    if decide (sequence = "") then Fasta.Failed (Fasta.Exn ValueError)
    else Fasta.Returned sequence.
Proof.
  intros Hfile. unfold Fasta.read_fasta.
  by rewrite Hfile, sequence_parts_lines.
Qed.

(** A text of lines does not begin with a line feed unless a line does. *)
Lemma text_of_lines_first (terminator : string) (ls : list string)
    (c : ascii) (rest : string) :
  terminator = String PyText.CR "" →
  Forall no_line_break ls →
  text_of_lines terminator ls = String c rest → c ≠ PyText.LF.
Proof.
  intros -> Hls. destruct Hls as [|l ls Hl _]; [done|]. simpl.
  destruct l as [|c' l].
  - intros [= <- _]. done.
  - rewrite append_cons. intros [= <- _].
    unfold no_line_break, chars in Hl. simpl in Hl.
    by apply Forall_cons in Hl as [[? _] _].
Qed.

(** Whatever the line ending, the text is read with line feeds. *)
Lemma universal_newlines_text_of_lines
    (terminator : string) (ls : list string) :
  terminator ∈ line_endings →
  Forall no_line_break ls →
  PyText.universal_newlines (text_of_lines terminator ls)
  = text_of_lines line_feed ls.
Proof.
  intros Hterminator Hls.
  induction Hls as [|l ls Hl Hls IH]; [done|].
  cbn [text_of_lines]. rewrite <- IH.
  apply universal_newlines_line.
  { eapply Forall_impl; [exact Hl|]. by intros c [_ ?]. }
  unfold line_endings in Hterminator.
  rewrite !elem_of_cons, elem_of_nil in Hterminator.
  destruct Hterminator as [->|[->|[->|[]]]].
  - apply universal_newlines_other. done.
  - apply universal_newlines_CR_LF.
  - destruct (text_of_lines (String PyText.CR "") ls) as [|c rest] eqn:Hrest.
    + done.
    + apply universal_newlines_CR_other.
      by eapply text_of_lines_first.
Qed.

Lemma strip_line_feed (l : string) :
  PyText.strip (l +:+ line_feed) = PyText.strip l.
Proof. by apply strip_append_spaces. Qed.

Lemma sequence_lines_terminated (ls : list string) :
  sequence_lines ((λ l, l +:+ line_feed) <$> ls) = sequence_lines ls.
Proof.
  unfold sequence_lines. rewrite <- list_fmap_compose. f_equal.
  apply list_fmap_ext. intros _ l _. apply strip_line_feed.
Qed.

(** [read_fasta] on a text given line by line. *)
Lemma read_fasta_text_of_lines (fs : gmap string string)
    (path terminator : string) (ls : list string) :
  terminator ∈ line_endings →
  Forall no_line_break ls →
  fs !! path = Some (text_of_lines terminator ls) →
  Fasta.read_fasta fs path
  = let sequence := PyText.upper (PyText.join "" (sequence_lines ls)) in
    if decide (sequence = "") then Fasta.Failed (Fasta.Exn ValueError)
    else Fasta.Returned sequence.
Proof.
  intros Hterminator Hls Hfile.
  rewrite (read_fasta_unfold _ _ _ Hfile).
  rewrite universal_newlines_text_of_lines, lines_text_of_lines by done.
  by rewrite sequence_lines_terminated.
Qed.

(** A header line is dropped. *)
Lemma strip_header (header : string) :
  PyText.strip (">" +:+ header) ≠ ""
  ∧ PyText.startswith (PyText.strip (">" +:+ header)) ">" = true.
Proof.
  unfold PyText.strip. change (">" +:+ header) with (String ">" header).
  cbn [PyText.lstrip]. change (PyText.isspace ">") with false. cbv iota.
  cbn [PyText.rstrip]. destruct (PyText.rstrip header); done.
Qed.

End read_fasta_facts.

Section read_fasta_outcome_facts.

Lemma sequence_lines_nil_iff (ls : list string) :
  sequence_lines ls = []
  ↔ Forall
      (λ line,
         PyText.strip line = ""
         ∨ PyText.startswith (PyText.strip line) ">" = true)
      ls.
Proof.
  unfold sequence_lines. induction ls as [|l ls IH]; [done|].
  rewrite fmap_cons, filter_cons, Forall_cons.
  destruct (decide (PyText.strip l ≠ ""
                    ∧ PyText.startswith (PyText.strip l) ">" = false))
    as [[Hne Hsw]|Hdrop].
  - split; [done|]. intros [[?|Hheader] _]; [done|]. congruence.
  - rewrite IH. split; [|by intros [_ ?]]. intros Hrest. split; [|done].
    destruct (decide (PyText.strip l = "")); [by left|]. right.
    destruct (PyText.startswith (PyText.strip l) ">"); [done|].
    by destruct Hdrop.
Qed.

(** The characters of the parts kept are characters of lines of the text,
    none of them a line feed or a carriage return. *)
Lemma sequence_lines_chars (text : string) (part : string) :
  part ∈ sequence_lines (PyText.lines (PyText.universal_newlines text)) →
  Forall (λ c, c ≠ PyText.LF ∧ c ≠ PyText.CR) (chars part).
Proof.
  unfold sequence_lines.
  intros [_ (line & -> & Hline)%list_elem_of_fmap]%list_elem_of_filter.
  pose proof (lines_bodies (λ c, c ≠ PyText.CR) _
                (universal_newlines_no_CR text)) as Hbodies.
  rewrite Forall_forall in Hbodies.
  destruct (Hbodies line Hline) as (body & [->| ->] & Hbody).
  - by apply strip_chars.
  - rewrite strip_line_feed. by apply strip_chars.
Qed.

End read_fasta_outcome_facts.

(** X19: [read_fasta] has three outcomes. A path that does not exist gives
    [FileNotFoundError]. A file all of whose lines are blank or, once
    stripped, start with [">"] gives the [ValueError]. Every other file
    gives a sequence, which is never empty. *)
Theorem read_fasta_outcome (fs : gmap string string) (path : string) :
  (fs !! path = None →
   Fasta.read_fasta fs path = Fasta.Failed Fasta.FileNotFoundError)
  ∧ ∀ text : string,
      fs !! path = Some text →
      let no_sequence :=
        Forall
          (λ line,
             PyText.strip line = ""
             ∨ PyText.startswith (PyText.strip line) ">" = true)
          (PyText.lines (PyText.universal_newlines text)) in
      (no_sequence →
       Fasta.read_fasta fs path = Fasta.Failed (Fasta.Exn ValueError))
      ∧ (¬ no_sequence →
         ∃ sequence : string,
           Fasta.read_fasta fs path = Fasta.Returned sequence
           ∧ sequence ≠ "").
Proof.
  split.
  - intros Hmissing. unfold Fasta.read_fasta. by rewrite Hmissing.
  - intros text Hfile no_sequence. subst no_sequence.
    rewrite (read_fasta_unfold _ _ _ Hfile). cbn zeta.
    rewrite <- sequence_lines_nil_iff, <- sequence_empty_iff.
    split.
    + intros Hempty. by rewrite decide_True.
    + intros Hne. rewrite decide_False by done. by eexists.
Qed.

(** X20: a sequence that [read_fasta] returns is not empty, holds no line
    feed and no carriage return, and is upper case: [upper] leaves each of
    its characters, and the whole, as it is. *)
Theorem read_fasta_sequence_shape
    (fs : gmap string string) (path sequence : string) :
  Fasta.read_fasta fs path = Fasta.Returned sequence →
  sequence ≠ ""
  ∧ Forall
      (λ c, c ≠ PyText.LF ∧ c ≠ PyText.CR ∧ PyText.upper_char c = c)
      (chars sequence)
  ∧ PyText.upper sequence = sequence.
Proof.
  unfold Fasta.read_fasta. destruct (fs !! path) as [text|]; [|done].
  rewrite sequence_parts_lines. cbn zeta.
  case_decide as Hne; [done|]. intros [= <-].
  split; [done|]. split; [|apply upper_fixed].
  rewrite chars_upper, Forall_fmap, chars_join.
  apply Forall_forall. intros c (cs & Hc & Hcs)%list_elem_of_join.
  apply list_elem_of_fmap in Hcs as (part & -> & Hpart).
  pose proof (sequence_lines_chars text part Hpart) as Hchars.
  rewrite Forall_forall in Hchars. destruct (Hchars c Hc) as [? ?].
  cbn [compose]. rewrite upper_char_fixed.
  split; [by apply upper_char_line_break|].
  split; [by apply upper_char_line_break|done].
Qed.

Lemma read_fasta_sequence_shape_witness :
  Fasta.read_fasta {[ "seq.fa" := ">id" +:+ line_feed +:+ "acGT" ]} "seq.fa"
  = Fasta.Returned "ACGT"
  ∧ "ACGT" ≠ ""
  ∧ PyText.upper "ACGT" = "ACGT".
Proof.
  assert (Fasta.read_fasta
            {[ "seq.fa" := ">id" +:+ line_feed +:+ "acGT" ]} "seq.fa"
          = Fasta.Returned "ACGT") as Hrun by (vm_compute; reflexivity).
  split; [exact Hrun|].
  destruct (read_fasta_sequence_shape _ _ _ Hrun) as (Hne & _ & Hupper).
  split; [exact Hne | exact Hupper].
Defined.

(** X21: a file of lines without line breaks in them, each ended by the
    same line ending (["\n"], ["\r\n"] or ["\r"]), gives the upper case of
    the stripped lines that are neither empty nor start with [">"], joined
    in order ([ValueError] when that is empty); so the line ending makes
    no difference. *)
Theorem read_fasta_lines
    (fs : gmap string string) (path terminator : string)
    (ls : list string) :
  terminator ∈ line_endings →
  Forall no_line_break ls →
  fs !! path = Some (text_of_lines terminator ls) →
  Fasta.read_fasta fs path
  = (let sequence := PyText.upper (PyText.join "" (sequence_lines ls)) in
     if decide (sequence = "") then Fasta.Failed (Fasta.Exn ValueError)
     else Fasta.Returned sequence)
  ∧ ∀ (fs' : gmap string string) (path' terminator' : string),
      terminator' ∈ line_endings →
      fs' !! path' = Some (text_of_lines terminator' ls) →
      Fasta.read_fasta fs' path' = Fasta.read_fasta fs path.
Proof.
  intros Hterminator Hls Hfile. split.
  - by apply (read_fasta_text_of_lines fs path terminator).
  - intros fs' path' terminator' Hterminator' Hfile'.
    rewrite (read_fasta_text_of_lines fs path terminator ls) by done.
    by rewrite (read_fasta_text_of_lines fs' path' terminator' ls).
Qed.

Lemma read_fasta_lines_witness :
  String PyText.CR line_feed ∈ line_endings
  ∧ Forall no_line_break [">id"; " acgt "; ""; "nn"]
  ∧ Fasta.read_fasta
      {[ "seq.fa" :=
           text_of_lines (String PyText.CR line_feed)
             [">id"; " acgt "; ""; "nn"] ]} "seq.fa"
    = Fasta.Returned "ACGTNN".
Proof.
  assert (String PyText.CR line_feed ∈ line_endings) as Hterminator
    by (right; left).
  assert (Forall no_line_break [">id"; " acgt "; ""; "nn"]) as Hls
    by (repeat constructor; unfold no_line_break; simpl;
        repeat constructor; done).
  split; [exact Hterminator|]. split; [exact Hls|].
  exact (proj1 (read_fasta_lines
                  {[ "seq.fa" :=
                       text_of_lines (String PyText.CR line_feed)
                         [">id"; " acgt "; ""; "nn"] ]}
                  "seq.fa" (String PyText.CR line_feed)
                  [">id"; " acgt "; ""; "nn"]
                  Hterminator Hls (lookup_singleton_eq _ _))).
Defined.

(** X22: reading back a file laid out as FASTA: a header line [">..."]
    followed by lines that have no white space at their ends, are not
    empty and do not start with [">"], gives those lines joined, in upper
    case; white space inside a line is kept. *)
Theorem read_fasta_standard_file
    (fs : gmap string string) (path terminator header : string)
    (ls : list string) :
  terminator ∈ line_endings →
  no_line_break header →
  Forall
    (λ l, no_line_break l ∧ PyText.strip l = l ∧ l ≠ ""
          ∧ PyText.startswith l ">" = false)
    ls →
  ls ≠ [] →
  fs !! path = Some (text_of_lines terminator ((">" +:+ header) :: ls)) →
  Fasta.read_fasta fs path
  = Fasta.Returned (PyText.upper (PyText.join "" ls)).
Proof.
  intros Hterminator Hheader Hls Hne Hfile.
  assert (Forall no_line_break ((">" +:+ header) :: ls)) as Hbreaks.
  { constructor.
    - unfold no_line_break. rewrite chars_append. apply Forall_app.
      split; [by repeat constructor|done].
    - eapply Forall_impl; [exact Hls|]. by intros l [? _]. }
  rewrite (read_fasta_text_of_lines fs path terminator _
             Hterminator Hbreaks Hfile).
  assert (sequence_lines ((">" +:+ header) :: ls) = ls) as ->.
  { unfold sequence_lines. rewrite fmap_cons, filter_cons.
    destruct (strip_header header) as [_ Hsw].
    rewrite decide_False by (intros [_ ?]; congruence).
    clear Hne Hfile Hbreaks. induction Hls as [|l ls (_ & Hl & ? & ?) _ IH];
      [done|].
    rewrite fmap_cons, filter_cons, Hl, decide_True by done. by rewrite IH. }
  cbn zeta. rewrite decide_False; [done|].
  rewrite upper_eq_empty, join_eq_empty; [done|].
  eapply Forall_impl; [exact Hls|]. by intros l (_ & _ & ? & _).
Qed.

Lemma read_fasta_standard_file_witness :
  line_feed ∈ line_endings
  ∧ no_line_break "pUC19 test"
  ∧ ["gattaca"; "NN acgt"] ≠ []
  ∧ Fasta.read_fasta
      {[ "seq.fa" :=
           text_of_lines line_feed
             ((">" +:+ "pUC19 test") :: ["gattaca"; "NN acgt"]) ]}
      "seq.fa"
    = Fasta.Returned (PyText.upper (PyText.join "" ["gattaca"; "NN acgt"])).
Proof.
  assert (line_feed ∈ line_endings) as Hterminator by left.
  assert (no_line_break "pUC19 test") as Hheader
    by (unfold no_line_break; simpl; repeat constructor; done).
  assert (Forall
            (λ l, no_line_break l ∧ PyText.strip l = l ∧ l ≠ ""
                  ∧ PyText.startswith l ">" = false)
            ["gattaca"; "NN acgt"]) as Hls
    by (repeat constructor; try done;
        unfold no_line_break; simpl; repeat constructor; done).
  assert (["gattaca"; "NN acgt"] ≠ []) as Hne by done.
  split; [exact Hterminator|]. split; [exact Hheader|]. split; [exact Hne|].
  exact (read_fasta_standard_file _ "seq.fa" line_feed "pUC19 test"
           ["gattaca"; "NN acgt"] Hterminator Hheader Hls Hne
           (lookup_singleton_eq _ _)).
Defined.
